(** * pdf_transaction_parser.py: tokenizer, statement parser and validator

    A shallow embedding of [src/pdf_transaction_parser.py].  Python [str]
    values are Rocq strings whose characters are the code points below 256;
    a transaction ([Dict[str, str]]) is a finite map from strings to
    strings; [Decimal] is modelled after the [decimal] module of CPython
    under its default context (28 significant digits, ROUND_HALF_EVEN,
    exponents in -999999..999999, traps on InvalidOperation,
    DivisionByZero, Overflow). *)

From Stdlib Require Import ZArith NArith Lia Bool Ascii.
From Stdlib Require DecimalString DecimalN.
From stdpp Require Import base option list gmap strings.

Local Open Scope Z_scope.

(** ** Python [str] primitives *)

Module PyStr.

(** [str.isspace] on one code point below 256: the characters that
    [str.split()] and [str.strip()] treat as whitespace. *)
Definition is_space (c : ascii) : bool :=
  match c with
  | "009" | "010" | "011" | "012" | "013"
  | "028" | "029" | "030" | "031" | " "
  | "133" | "160" => true
  | _ => false
  end%char.

(** Decimal digits among the code points below 256 (what [\d] and the
    [Decimal] constructor accept there). *)
Definition is_digit (c : ascii) : bool :=
  match c with
  | "0" | "1" | "2" | "3" | "4" | "5" | "6" | "7" | "8" | "9" => true
  | _ => false
  end%char.

Definition is_empty (s : string) : bool :=
  match s with "" => true | _ => false end.

(** A truthy string ([if s:]). *)
Definition truthy (s : string) : bool := negb (is_empty s).

(** [s.replace(c, '')] for a one-character [c]. *)
Fixpoint remove_char (c : ascii) (s : string) : string :=
  match s with
  | "" => ""
  | String a r =>
      if Ascii.eqb a c then remove_char c r else String a (remove_char c r)
  end.

Fixpoint lstrip (s : string) : string :=
  match s with
  | "" => ""
  | String a r => if is_space a then lstrip r else s
  end.

Fixpoint rstrip (s : string) : string :=
  match s with
  | "" => ""
  | String a r =>
      let r' := rstrip r in
      if is_space a && is_empty r' then "" else String a r'
  end.

(** [s.strip()] *)
Definition strip (s : string) : string := lstrip (rstrip s).

(** [s.split()]: maximal runs of non-whitespace characters, in order.
    [cur] is the run being read. *)
Fixpoint split_go (cur : string) (s : string) : list string :=
  match s with
  | "" => if is_empty cur then [] else [cur]
  | String a r =>
      if is_space a
      then (if is_empty cur then split_go "" r else cur :: split_go "" r)
      else split_go (cur +:+ String a "") r
  end.

Definition split (s : string) : list string := split_go "" s.

(** [s.split(sep)] for a one-character separator: empty pieces are kept. *)
Fixpoint split_on_go (sep : ascii) (cur : string) (s : string) : list string :=
  match s with
  | "" => [cur]
  | String a r =>
      if Ascii.eqb a sep then cur :: split_on_go sep "" r
      else split_on_go sep (cur +:+ String a "") r
  end.

Definition split_on (sep : ascii) (s : string) : list string :=
  split_on_go sep "" s.

(** [sep.join(l)] *)
Fixpoint join (sep : string) (l : list string) : string :=
  match l with
  | [] => ""
  | [x] => x
  | x :: r => x +:+ sep +:+ join sep r
  end.

(** [l[i:j]] with Python's treatment of negative and out-of-range bounds. *)
Definition slice_bound {A} (l : list A) (i : Z) : nat :=
  let n := Z.of_nat (length l) in
  Z.to_nat (Z.min n (Z.max 0 (if i <? 0 then i + n else i))).

Definition slice {A} (l : list A) (i j : Z) : list A :=
  let a := slice_bound l i in
  let b := slice_bound l j in
  take (b - a)%nat (drop a l).

(** No character of [s] is whitespace. *)
Fixpoint no_space (s : string) : bool :=
  match s with
  | "" => true
  | String a r => negb (is_space a) && no_space r
  end.

End PyStr.

(** ** Exceptions and fallible computations *)

Inductive exn : Type :=
| InvalidOperation
| Overflow
| ValueError.

Inductive result (A : Type) : Type :=
| Ok (a : A)
| Raise (e : exn).

Arguments Ok {A} a.
Arguments Raise {A} e.

(** [x ← r; k] runs [k] on the value of [r], or propagates what [r]
    raised. *)
#[global] Instance result_ret : MRet result := fun _ a => Ok a.
#[global] Instance result_bind : MBind result := fun _ _ k r =>
  match r with
  | Ok a => k a
  | Raise e => Raise e
  end.

(** ** [decimal.Decimal] under the default context *)

Module PyDecimal.
Import PyStr.

(** A finite number is (-1)^sign * coeff * 10^exp; a NaN carries its
    diagnostic payload as a number (0 for the empty payload). *)
Inductive Decimal : Type :=
| DFinite (sign : bool) (coeff : N) (exp : Z)
| DInf (sign : bool)
| DNaN (sign : bool) (signaling : bool) (payload : N).

Definition prec : Z := 28.
Definition Emax : Z := 999999.
Definition Emin : Z := -999999.
Definition Etiny : Z := Emin - prec + 1.
Definition Etop : Z := Emax - prec + 1.

(** *** Integers and digit strings *)

(** [str(n)] for a non-negative integer. *)
Definition str_int (n : N) : string :=
  DecimalString.NilZero.string_of_uint (N.to_uint n).

Definition digit_val (c : ascii) : N := (N_of_ascii c - 48)%N.

(** [int(s)] for a string of digits (0 for the empty string). *)
Fixpoint int_of_digits_go (acc : N) (s : string) : N :=
  match s with
  | "" => acc
  | String a r => int_of_digits_go (10 * acc + digit_val a)%N r
  end.

Definition int_of_digits (s : string) : N := int_of_digits_go 0%N s.

(** The longest prefix of digits, and the rest. *)
Fixpoint span_digits (s : string) : string * string :=
  match s with
  | "" => ("", "")
  | String a r =>
      if is_digit a
      then let '(d, t) := span_digits r in (String a d, t)
      else ("", s)
  end.

Definition lower (c : ascii) : ascii :=
  let n := N_of_ascii c in
  if ((65 <=? n) && (n <=? 90))%N then ascii_of_N (n + 32) else c.

Fixpoint lowercase (s : string) : string :=
  match s with
  | "" => ""
  | String a r => String (lower a) (lowercase r)
  end.

(** *** Construction from a string

    [Decimal(s)]: surrounding whitespace is stripped and underscores
    are removed; what remains must be, case-insensitively,
    [[sign] digits [. digits] [E [sign] digits]] with at least one digit
    in the coefficient, [[sign] Inf[inity]], or [[sign] [s]NaN [digits]].
    The construction is exact: a number that would have to be rounded or
    clamped to fit the widest context (exponent below MIN_ETINY, or
    adjusted exponent above MAX_EMAX) raises InvalidOperation. *)

Definition MAX_EMAX : Z := 999999999999999999.
Definition MIN_ETINY : Z := -1999999999999999997.

(** The number of digits of a coefficient. *)
Definition ndigits (c : N) : Z := Z.of_nat (String.length (str_int c)).

(** The number coeff * 10^exp is representable exactly. *)
Definition exact_in_range (c : N) (e : Z) : bool :=
  (MIN_ETINY <=? e)
  && (if (c =? 0)%N then e <=? MAX_EMAX else e + ndigits c - 1 <=? MAX_EMAX).

Definition split_sign (s : string) : bool * string :=
  match s with
  | String "-" r => (true, r)
  | String "+" r => (false, r)
  | _ => (false, s)
  end.

Definition parse_exponent (s : string) : option Z :=
  match s with
  | "" => Some 0
  | String c r =>
      if Ascii.eqb (lower c) "e" then
        let '(neg, r1) := split_sign r in
        let '(ds, rest) := span_digits r1 in
        if truthy ds && is_empty rest
        then Some (if neg then - Z.of_N (int_of_digits ds)
                   else Z.of_N (int_of_digits ds))
        else None
      else None
  end.

Definition parse_number (sign : bool) (s : string) : option Decimal :=
  let '(intpart, r1) := span_digits s in
  let '(fracpart, r2) :=
    match r1 with
    | String "." r => span_digits r
    | _ => ("", r1)
    end in
  if truthy intpart || truthy fracpart then
    match parse_exponent r2 with
    | Some e =>
        let coeff := int_of_digits (intpart +:+ fracpart) in
        let exp := e - Z.of_nat (String.length fracpart) in
        if exact_in_range coeff exp then Some (DFinite sign coeff exp)
        else None
    | None => None
    end
  else None.

Definition parse_nan (sign signaling : bool) (diag : string) : option Decimal :=
  let '(ds, rest) := span_digits diag in
  if is_empty rest then Some (DNaN sign signaling (int_of_digits ds)) else None.

Definition parse (s : string) : option Decimal :=
  let s1 := remove_char "_" (strip s) in
  let '(sign, r) := split_sign s1 in
  match lowercase r with
  | "inf" | "infinity" => Some (DInf sign)
  | String "n" (String "a" (String "n" _)) =>
      parse_nan sign false (String.substring 3 (String.length r) r)
  | String "s" (String "n" (String "a" (String "n" _))) =>
      parse_nan sign true (String.substring 4 (String.length r) r)
  | _ => parse_number sign r
  end.

(** [Decimal(s)]: raises InvalidOperation when [s] is not a numeric
    string. *)
Definition of_str (s : string) : result Decimal :=
  match parse s with
  | Some d => Ok d
  | None => Raise InvalidOperation
  end.

(** *** Rounding to the context *)

Definition fix_finite (s : bool) (c : N) (e : Z) : result Decimal :=
  if (c =? 0)%N then Ok (DFinite s 0 (Z.min (Z.max e Etiny) Emax))
  else
    let len := ndigits c in
    let exp_min := len + e - prec in
    if Etop <? exp_min then Raise Overflow
    else
      let exp_min := if exp_min <? Etiny then Etiny else exp_min in
      if e <? exp_min then
        let digits := len + e - exp_min in
        let '(c1, e1) := if digits <? 0 then (1%N, exp_min - 1) else (c, e) in
        let unit := (10 ^ Z.to_N (exp_min - e1))%N in
        let q := (c1 / unit)%N in
        let rem := (c1 mod unit)%N in
        let half := (unit / 2)%N in
        let up := (half <? rem)%N || ((rem =? half)%N && N.odd q) in
        let coeff := if up then (q + 1)%N else q in
        let '(coeff, exp_min) :=
          if up && (prec <? ndigits coeff) then ((coeff / 10)%N, exp_min + 1)
          else (coeff, exp_min) in
        if Etop <? exp_min then Raise Overflow
        else Ok (DFinite s coeff exp_min)
      else Ok (DFinite s c e).

(** A NaN keeps at most [prec] digits of payload. *)
Definition fix_nan (s sig : bool) (p : N) : Decimal :=
  if prec <? ndigits p then DNaN s sig (p mod 10 ^ Z.to_N prec)%N
  else DNaN s sig p.

Definition fix_context (d : Decimal) : result Decimal :=
  match d with
  | DFinite s c e => fix_finite s c e
  | DInf s => Ok (DInf s)
  | DNaN s sig p => Ok (fix_nan s sig p)
  end.

(** The NaN rule of every arithmetic operation: a signaling NaN raises,
    a quiet NaN is the result. *)
Definition check_nans (a b : Decimal) : option (result Decimal) :=
  match a, b with
  | DNaN _ true _, _ => Some (Raise InvalidOperation)
  | _, DNaN _ true _ => Some (Raise InvalidOperation)
  | DNaN s false p, _ => Some (Ok (fix_nan s false p))
  | _, DNaN s false p => Some (Ok (fix_nan s false p))
  | _, _ => None
  end.

Definition copy_negate (d : Decimal) : Decimal :=
  match d with
  | DFinite s c e => DFinite (negb s) c e
  | DInf s => DInf (negb s)
  | DNaN s sig p => DNaN (negb s) sig p
  end.

Definition signed (s : bool) (c : N) : Z :=
  if s then - Z.of_N c else Z.of_N c.

(** [a + b] *)
Definition add (a b : Decimal) : result Decimal :=
  match check_nans a b with
  | Some r => r
  | None =>
      match a, b with
      | DInf s1, DInf s2 =>
          if Bool.eqb s1 s2 then Ok (DInf s1) else Raise InvalidOperation
      | DInf s1, _ => Ok (DInf s1)
      | _, DInf s2 => Ok (DInf s2)
      | DFinite s1 c1 e1, DFinite s2 c2 e2 =>
          let exp := Z.min e1 e2 in
          if (c1 =? 0)%N && (c2 =? 0)%N then fix_finite (s1 && s2) 0 exp
          else if (c1 =? 0)%N then
            let exp := Z.max exp (e2 - prec - 1) in
            fix_finite s2 (c2 * 10 ^ Z.to_N (e2 - exp))%N exp
          else if (c2 =? 0)%N then
            let exp := Z.max exp (e1 - prec - 1) in
            fix_finite s1 (c1 * 10 ^ Z.to_N (e1 - exp))%N exp
          else
            let v := signed s1 c1 * 10 ^ (e1 - exp)
                     + signed s2 c2 * 10 ^ (e2 - exp) in
            fix_finite (v <? 0) (Z.to_N (Z.abs v)) exp
      | _, _ => Raise InvalidOperation
      end
  end.

(** [a - b] *)
Definition sub (a b : Decimal) : result Decimal :=
  match check_nans a b with
  | Some r => r
  | None => add a (copy_negate b)
  end.

(** [abs(a)] *)
Definition abs (a : Decimal) : result Decimal :=
  match a with
  | DNaN _ true _ => Raise InvalidOperation
  | DNaN s false p => Ok (fix_nan s false p)
  | DInf _ => Ok (DInf false)
  | DFinite _ c e => fix_finite false c e
  end.

(** *** Ordering *)

Definition is_nan (d : Decimal) : bool :=
  match d with DNaN _ _ _ => true | _ => false end.

Definition isinfinity (d : Decimal) : Z :=
  match d with
  | DInf false => 1
  | DInf true => -1
  | _ => 0
  end.

(** Numerical comparison of two numbers that are not NaN. *)
Definition cmp (a b : Decimal) : comparison :=
  match a, b with
  | DFinite s1 c1 e1, DFinite s2 c2 e2 =>
      let m := Z.min e1 e2 in
      Z.compare (signed s1 c1 * 10 ^ (e1 - m)) (signed s2 c2 * 10 ^ (e2 - m))
  | _, _ => Z.compare (isinfinity a) (isinfinity b)
  end.

(** [a > b] and [a < b]: an ordering comparison with a NaN raises. *)
Definition gt (a b : Decimal) : result bool :=
  if is_nan a || is_nan b then Raise InvalidOperation
  else Ok (match cmp a b with Gt => true | _ => false end).

Definition lt (a b : Decimal) : result bool :=
  if is_nan a || is_nan b then Raise InvalidOperation
  else Ok (match cmp a b with Lt => true | _ => false end).

(** *** [str(d)]: the scientific string *)

Fixpoint zeros (n : nat) : string :=
  match n with
  | O => ""
  | S k => String "0" (zeros k)
  end.

(** ["%+d" % z] *)
Definition str_signed (z : Z) : string :=
  if z <? 0 then "-" +:+ str_int (Z.to_N (- z)) else "+" +:+ str_int (Z.to_N z).

Definition str_finite (c : N) (e : Z) : string :=
  let ds := str_int c in
  let len := Z.of_nat (String.length ds) in
  let leftdigits := e + len in
  let dotplace := if (e <=? 0) && (-6 <? leftdigits) then leftdigits else 1 in
  let body :=
    if dotplace <=? 0 then "0" +:+ "." +:+ zeros (Z.to_nat (- dotplace)) +:+ ds
    else if len <=? dotplace then ds +:+ zeros (Z.to_nat (dotplace - len))
    else String.substring 0 (Z.to_nat dotplace) ds +:+ "." +:+
         String.substring (Z.to_nat dotplace) (Z.to_nat (len - dotplace)) ds in
  if leftdigits =? dotplace then body
  else body +:+ "E" +:+ str_signed (leftdigits - dotplace).

Definition str (d : Decimal) : string :=
  match d with
  | DFinite s c e => (if s then "-" else "") +:+ str_finite c e
  | DInf s => (if s then "-" else "") +:+ "Infinity"
  | DNaN s sig p =>
      (if s then "-" else "") +:+ (if sig then "sNaN" else "NaN")
      +:+ (if (p =? 0)%N then "" else str_int p)
  end.

End PyDecimal.

Import PyStr.
Import PyDecimal.

(** ** The tokenizer *)

(** [is_numeric(value)]: the value, without commas and apostrophes and
    trimmed, is non-empty and [Decimal] accepts it. *)
Definition is_numeric (value : string) : bool :=
  let cleaned_value := strip (remove_char "'" (remove_char "," value)) in
  if truthy cleaned_value then
    match of_str cleaned_value with
    | Ok _ => true
    | Raise _ => false
    end
  else false.

(** [clean_amount(value)] *)
Definition clean_amount (value : string) : string :=
  strip (remove_char "," (remove_char "'" value)).

(** Where the pattern's [$] matches: at the end of the text, or just
    before a newline that ends it. *)
Definition at_dollar (rest : string) : bool :=
  match rest with
  | "" => true
  | String c "" => Ascii.eqb c "010"
  | _ => false
  end.

(** [is_date(text)]: [re.match(r'^\d{2}\.\d{2}\.\d{2}$', text)]. *)
Definition is_date (text : string) : bool :=
  match text with
  | String d1 (String d2 (String p1 (String d3 (String d4 (String p2
      (String d5 (String d6 rest))))))) =>
      is_digit d1 && is_digit d2 && Ascii.eqb p1 "."
      && is_digit d3 && is_digit d4 && Ascii.eqb p2 "."
      && is_digit d5 && is_digit d6 && at_dollar rest
  | _ => false
  end.

Record ParsedFields : Type := {
  date : string;
  description : string;
  amount : option string;
  balance : string
}.

(** The first numeric part of [l], with its position counted from [i]. *)
Fixpoint find_numeric (i : nat) (l : list string) : option (nat * string) :=
  match l with
  | [] => None
  | part :: r => if is_numeric part then Some (i, part) else find_numeric (S i) r
  end.

(** The loop [for i in range(n, 0, -1)] that looks for the amount: the
    first numeric part at an index from [n] down to 1. *)
Fixpoint find_amount (parts : list string) (n : nat) : option string * Z :=
  match n with
  | O => (None, -1)
  | S k =>
      match parts !! n with
      | None => find_amount parts k
      | Some part =>
          if is_numeric part then (Some (clean_amount part), Z.of_nat n)
          else find_amount parts k
      end
  end.

Definition truthy_opt (o : option string) : bool :=
  match o with
  | Some s => truthy s
  | None => false
  end.

(** [extract_transaction_data(line)] *)
Definition extract_transaction_data (line : string) : option ParsedFields :=
  let parts := split line in
  if (length parts <? 3)%nat then None
  else if negb (is_date (parts !!! 0%nat)) then None
  else
    let '(balance, balance_index) :=
      match find_numeric 0 (reverse parts) with
      | Some (i, part) =>
          (Some (clean_amount part), Z.of_nat (length parts) - 1 - Z.of_nat i)
      | None => (None, -1)
      end in
    if negb (truthy_opt balance) then None
    else
      let '(amount, amount_index) :=
        find_amount parts (Z.to_nat (balance_index - 1)) in
      let description_parts :=
        if 0 <? amount_index then slice parts 1 amount_index
        else slice parts 1 balance_index in
      Some {| date := parts !!! 0%nat;
              description := strip (join " " description_parts);
              amount := amount;
              balance := default "" balance |}.

(** ** Transactions *)

Abbreviation Transaction := (gmap string string).

(** [t.get(key, '')] *)
Definition get (t : Transaction) (key : string) : string :=
  default "" (t !! key).

(** The dictionary literal with the five output keys. *)
Definition mk_transaction (date description debit credit balance : string)
  : Transaction :=
  <["Date" := date]> (<["Description" := description]> (<["Debit" := debit]>
    (<["Credit" := credit]> (<["Balance" := balance]> ∅)))).

Inductive log_entry : Type :=
| NoTextOnPage (page_num : nat)
| LineError (line_num page_num : nat) (e : exn)
| ValidationError (e : exn).

(** [enumerate(l, start)] *)
Fixpoint enumerate {A} (start : nat) (l : list A) : list (nat * A) :=
  match l with
  | [] => []
  | x :: r => (start, x) :: enumerate (S start) r
  end.

(** ** The statement parser *)

(** The body of the [try] for one line: [Ok None] is the silent
    [continue], [Ok (Some (t, b))] the appended transaction and the new
    previous balance, [Raise e] an exception for the handler. *)
Definition process_line (prev_balance : option Decimal) (line : string)
  : result (option (Transaction * Decimal)) :=
  match extract_transaction_data line with
  | None => Ok None
  | Some transaction_data =>
      current_balance ← of_str (balance transaction_data);
      amount ← (if truthy_opt (amount transaction_data)
                 then a ← of_str (default "" (amount transaction_data)); Ok (Some a)
                 else Ok None);
      dc ← match prev_balance, amount with
            | Some prev, Some a =>
                b ← gt current_balance prev;
                if b : bool then Ok ("", str a) else Ok (str a, "")
            | _, _ => Ok ("", "")
            end;
      Ok (Some (mk_transaction (date transaction_data)
                  (description transaction_data) (fst dc) (snd dc)
                  (balance transaction_data),
                current_balance))
  end.

Record parser_state : Type := {
  transactions : list Transaction;
  prev_balance : option Decimal;
  parser_log : list log_entry
}.

(** One iteration of the loop over the lines of a page; every exception
    is logged and the line skipped. *)
Definition parse_line (page_num : nat) (st : parser_state)
    (numbered : nat * string) : parser_state :=
  let '(line_num, line) := numbered in
  match process_line (prev_balance st) line with
  | Ok None => st
  | Ok (Some (transaction, current_balance)) =>
      {| transactions := transactions st ++ [transaction];
         prev_balance := Some current_balance;
         parser_log := parser_log st |}
  | Raise e =>
      {| transactions := transactions st;
         prev_balance := prev_balance st;
         parser_log := parser_log st ++ [LineError line_num page_num e] |}
  end.

Definition no_text (st : parser_state) (page_num : nat) : parser_state :=
  {| transactions := transactions st;
     prev_balance := prev_balance st;
     parser_log := parser_log st ++ [NoTextOnPage page_num] |}.

(** One iteration of the loop over the pages; a page is the result of
    [extract_text()], [None] or a string. *)
Definition parse_page (st : parser_state) (numbered : nat * option string)
  : parser_state :=
  let '(page_num, page) := numbered in
  match page with
  | None => no_text st page_num
  | Some text =>
      if is_empty text then no_text st page_num
      else foldl (parse_line page_num) st (enumerate 1 (split_on "010" text))
  end.

Definition parser_init : parser_state :=
  {| transactions := []; prev_balance := None; parser_log := [] |}.

Definition parse_pages (pages : list (option string)) : parser_state :=
  foldl parse_page parser_init (enumerate 1 pages).

(** [parse_pdf] on the pages of an existing file: a document without
    pages raises ValueError. *)
Definition parse_pdf (pages : list (option string)) : result (list Transaction) :=
  match pages with
  | [] => Raise ValueError
  | _ => Ok (transactions (parse_pages pages))
  end.

(** ** The validator *)

(** The body of the [try] for one transaction. *)
Definition validate_one (prev_balance : option Decimal) (transaction : Transaction)
  : result (option (Transaction * Decimal)) :=
  let date := strip (get transaction "Date") in
  let description := strip (get transaction "Description") in
  let balance := strip (get transaction "Balance") in
  if negb (truthy date && truthy description && truthy balance) then Ok None
  else
    current_balance ← of_str balance;
    let debit := strip (get transaction "Debit") in
    let credit := strip (get transaction "Credit") in
    dc ← match prev_balance with
          | Some prev =>
              diff ← sub current_balance prev;
              balance_diff ← abs diff;
              if negb (truthy debit || truthy credit) then
                l ← lt current_balance prev;
                if l : bool then Ok (str balance_diff, "")
                else
                  g ← gt current_balance prev;
                  if g : bool then Ok ("", str balance_diff)
                  else Ok (debit, credit)
              else Ok (debit, credit)
          | None => Ok (debit, credit)
          end;
    Ok (Some (mk_transaction date description (fst dc) (snd dc) balance,
              current_balance)).

Record validator_state : Type := {
  validated_transactions : list Transaction;
  validator_prev : option Decimal;
  validator_log : list log_entry
}.

(** [except (InvalidOperation, ValueError)] *)
Definition handled (e : exn) : bool :=
  match e with
  | InvalidOperation | ValueError => true
  | Overflow => false
  end.

(** The loop over the transactions: a handled exception is logged and the
    record skipped, any other exception leaves the function. *)
Fixpoint validate_loop (st : validator_state) (l : list Transaction)
  : result validator_state :=
  match l with
  | [] => Ok st
  | transaction :: r =>
      match validate_one (validator_prev st) transaction with
      | Ok None => validate_loop st r
      | Ok (Some (validated_transaction, current_balance)) =>
          validate_loop
            {| validated_transactions :=
                 validated_transactions st ++ [validated_transaction];
               validator_prev := Some current_balance;
               validator_log := validator_log st |} r
      | Raise e =>
          if handled e then
            validate_loop
              {| validated_transactions := validated_transactions st;
                 validator_prev := validator_prev st;
                 validator_log := validator_log st ++ [ValidationError e] |} r
          else Raise e
      end
  end.

Definition validator_init : validator_state :=
  {| validated_transactions := []; validator_prev := None; validator_log := [] |}.

(** [validate_transactions(transactions)] *)
Definition validate_transactions (l : list Transaction)
  : result (list Transaction) :=
  st ← validate_loop validator_init l; Ok (validated_transactions st).

(** ** Vocabulary of the specification *)

(** The date pattern in the specification's words: exactly two digits, a
    dot, two digits, a dot, two digits. *)
Definition date_pattern (s : string) : bool :=
  match s with
  | String d1 (String d2 (String p1 (String d3 (String d4 (String p2
      (String d5 (String d6 rest))))))) =>
      is_digit d1 && is_digit d2 && Ascii.eqb p1 "."
      && is_digit d3 && is_digit d4 && Ascii.eqb p2 "."
      && is_digit d5 && is_digit d6 && is_empty rest
  | _ => false
  end.

(** "Looks numeric" in the specification's words: after stripping commas,
    apostrophes and surrounding whitespace the token is non-empty and
    parses as a decimal. *)
Definition looks_numeric (t : string) : Prop :=
  let cleaned := strip (remove_char "'" (remove_char "," t)) in
  cleaned ≠ "" ∧ is_Some (parse cleaned).

(** The Debit and Credit of a kept record, from the trimmed input
    values, the previous balance and the current one. *)
Definition repaired (prev : option Decimal) (current_balance : Decimal)
    (debit credit debit' credit' : string) : Prop :=
  match prev with
  | None => debit' = debit ∧ credit' = credit
  | Some p =>
      ∃ diff balance_diff,
        sub current_balance p = Ok diff
        ∧ abs diff = Ok balance_diff
        ∧ if truthy debit || truthy credit
          then debit' = debit ∧ credit' = credit
          else (lt current_balance p = Ok true
                ∧ debit' = str balance_diff ∧ credit' = "")
               ∨ (lt current_balance p = Ok false
                  ∧ gt current_balance p = Ok true
                  ∧ debit' = "" ∧ credit' = str balance_diff)
               ∨ (lt current_balance p = Ok false
                  ∧ gt current_balance p = Ok false
                  ∧ debit' = "" ∧ credit' = "")
  end.

(** The previous balance of a state is the balance of the record kept
    last, and unknown when none was kept. *)
Definition tracks_last_kept (st : validator_state) : Prop :=
  match last (validated_transactions st) with
  | None => validator_prev st = None
  | Some kept =>
      ∃ b, of_str (get kept "Balance") = Ok b ∧ validator_prev st = Some b
  end.

(** The state of the validator after it has kept [kept] with the balance
    [current_balance]: the record is appended, the previous balance
    moves to [current_balance], the log is as it was. *)
Definition after_keeping (st : validator_state) (kept : Transaction)
    (current_balance : Decimal) : validator_state :=
  {| validated_transactions := validated_transactions st ++ [kept];
     validator_prev := Some current_balance;
     validator_log := validator_log st |}.

(** At most one of Debit and Credit is a non-empty string. *)
Definition at_most_one (t : Transaction) : Prop :=
  get t "Debit" = "" ∨ get t "Credit" = "".

(** The lines a page contributes, and the lines of a document in
    document order. *)
Definition page_lines (page : option string) : list string :=
  match page with
  | None => []
  | Some text => if is_empty text then [] else split_on "010" text
  end.

Definition doc_lines (pages : list (option string)) : list string :=
  concat (map page_lines pages).

(** [transaction] is the record the parser emits for [line]. *)
Definition emitted_from (line : string) (transaction : Transaction) : Prop :=
  ∃ prev current_balance,
    process_line prev line = Ok (Some (transaction, current_balance)).

(** [t'] is the record the validator keeps for [t]. *)
Definition kept_from (t t' : Transaction) : Prop :=
  ∃ prev current_balance,
    validate_one prev t = Ok (Some (t', current_balance)).

(** ** Further vocabulary *)

(** [c in s] *)
Fixpoint has_char (c : ascii) (s : string) : bool :=
  match s with
  | "" => false
  | String a r => Ascii.eqb a c || has_char c r
  end.


(** The line loop of the parser without its log: the records emitted for
    a sequence of lines and the previous balance at its end, from the
    records [acc] and the previous balance [prev]. *)
Fixpoint run_lines (acc : list Transaction) (prev : option Decimal)
    (lines : list string) : list Transaction * option Decimal :=
  match lines with
  | [] => (acc, prev)
  | line :: r =>
      match process_line prev line with
      | Ok (Some (transaction, current_balance)) =>
          run_lines (acc ++ [transaction]) (Some current_balance) r
      | _ => run_lines acc prev r
      end
  end.

(** What [main] hands to [save_transactions]: the validated
    transactions of the parsed document. *)
Definition main_transactions (pages : list (option string))
  : result (list Transaction) :=
  raw_transactions ← parse_pdf pages; validate_transactions raw_transactions.

(** The string starts with a minus sign. *)
Definition starts_with_minus (s : string) : bool :=
  match s with
  | String c _ => Ascii.eqb c "-"
  | "" => false
  end.

(** The five keys of an output record. *)
Definition output_keys : gset string :=
  {["Date"; "Description"; "Debit"; "Credit"; "Balance"]}.

(** * Properties *)

(** ** Strings *)

Section StringFacts.

Lemma remove_char_comm (a b : ascii) (s : string) :
  remove_char a (remove_char b s) = remove_char b (remove_char a s).
Proof.
  induction s as [|c s IH]; [done|]. simpl.
  destruct (Ascii.eqb c b) eqn:Hb, (Ascii.eqb c a) eqn:Ha; simpl;
    rewrite ?Hb, ?Ha, ?IH; done.
Qed.

Lemma is_empty_true (s : string) : is_empty s = true ↔ s = "".
Proof. destruct s; simpl; split; congruence. Qed.

Lemma truthy_true (s : string) : truthy s = true ↔ s ≠ "".
Proof. destruct s; unfold truthy; simpl; split; congruence. Qed.

Lemma truthy_false (s : string) : truthy s = false ↔ s = "".
Proof. destruct s; unfold truthy; simpl; split; congruence. Qed.

Lemma no_space_app (s t : string) :
  no_space (s +:+ t) = no_space s && no_space t.
Proof.
  induction s as [|a s IH]; [done|]. simpl. rewrite IH.
  by rewrite andb_assoc.
Qed.

Lemma lstrip_no_space (s : string) : no_space s = true → lstrip s = s.
Proof. destruct s as [|a s]; [done|]. simpl. by destruct (is_space a). Qed.

Lemma rstrip_no_space (s : string) : no_space s = true → rstrip s = s.
Proof.
  induction s as [|a s IH]; [done|]. simpl.
  intros [Ha Hs]%andb_true_iff. rewrite (IH Hs).
  by destruct (is_space a).
Qed.

Lemma strip_no_space (s : string) : no_space s = true → strip s = s.
Proof.
  intros H. unfold strip. rewrite (rstrip_no_space s H).
  by apply lstrip_no_space.
Qed.

Lemma lstrip_idemp (s : string) : lstrip (lstrip s) = lstrip s.
Proof.
  induction s as [|a s IH]; [done|]. simpl.
  destruct (is_space a) eqn:Ha; [done|]. simpl. by rewrite Ha.
Qed.

Lemma rstrip_idemp (s : string) : rstrip (rstrip s) = rstrip s.
Proof.
  induction s as [|a s IH]; [done|]. simpl.
  destruct (is_space a && is_empty (rstrip s)) eqn:Hc; [done|].
  simpl. by rewrite IH, Hc.
Qed.

Lemma rstrip_lstrip (s : string) : rstrip (lstrip s) = lstrip (rstrip s).
Proof.
  induction s as [|a s IH]; [done|]. simpl.
  destruct (is_space a) eqn:Ha; simpl.
  - rewrite IH. destruct (rstrip s) eqn:Hr; simpl; [done|]. by rewrite Ha.
  - by rewrite Ha.
Qed.

(** Trimming twice is trimming once. *)
Lemma strip_idemp (s : string) : strip (strip s) = strip s.
Proof.
  unfold strip. rewrite rstrip_lstrip, rstrip_idemp. apply lstrip_idemp.
Qed.

Lemma strip_empty : strip "" = "".
Proof. done. Qed.

(** The parts of [s.split()] are non-empty and free of whitespace. *)
Lemma split_go_parts (s cur : string) :
  no_space cur = true →
  Forall (λ t, no_space t = true ∧ t ≠ "") (split_go cur s).
Proof.
  revert cur. induction s as [|a s IH]; intros cur Hcur; simpl.
  - destruct cur; simpl; [constructor|]. by repeat constructor.
  - destruct (is_space a) eqn:Ha.
    + destruct cur; simpl; [by apply IH|].
      constructor; [done|]. by apply IH.
    + apply IH. rewrite no_space_app, Hcur. simpl. by rewrite Ha.
Qed.

Lemma split_parts (s : string) :
  Forall (λ t, no_space t = true ∧ t ≠ "") (split s).
Proof. by apply split_go_parts. Qed.

End StringFacts.

(** ** Decimal strings *)

Section DecimalFacts.

Lemma uint_string_no_space (d : Decimal.uint) :
  no_space (DecimalString.NilEmpty.string_of_uint d) = true.
Proof. induction d; simpl; auto. Qed.

Lemma str_int_no_space (n : N) : no_space (str_int n) = true.
Proof.
  unfold str_int, DecimalString.NilZero.string_of_uint.
  destruct (N.to_uint n) eqn:E; [done|..];
    rewrite <- E; apply uint_string_no_space.
Qed.

Lemma str_int_nonempty (n : N) : str_int n ≠ "".
Proof.
  unfold str_int, DecimalString.NilZero.string_of_uint.
  destruct (N.to_uint n); simpl; discriminate.
Qed.

Lemma zeros_no_space (n : nat) : no_space (zeros n) = true.
Proof. induction n; simpl; auto. Qed.

Lemma substring_no_space (s : string) (n m : nat) :
  no_space s = true → no_space (String.substring n m s) = true.
Proof.
  revert n m. induction s as [|a s IH]; intros n m H.
  - by destruct n, m.
  - simpl in H. apply andb_true_iff in H as [Ha Hs].
    destruct n, m; simpl; auto. rewrite Ha. simpl. auto.
Qed.

Lemma str_signed_no_space (z : Z) : no_space (str_signed z) = true.
Proof.
  unfold str_signed. destruct (z <? 0);
    rewrite no_space_app, str_int_no_space; done.
Qed.

Lemma app_nonempty_l (s t : string) : s ≠ "" → s +:+ t ≠ "".
Proof. destruct s; [done|]. discriminate. Qed.

Lemma app_nonempty_r (s t : string) : t ≠ "" → s +:+ t ≠ "".
Proof. destruct s; [done|]. discriminate. Qed.

Lemma str_finite_no_space (c : N) (e : Z) : no_space (str_finite c e) = true.
Proof.
  unfold str_finite.
  repeat (case_match || rewrite no_space_app
          || rewrite str_int_no_space || rewrite zeros_no_space
          || rewrite str_signed_no_space
          || rewrite substring_no_space by apply str_int_no_space);
    done.
Qed.

Lemma substring_0_nonempty (s : string) (n : nat) :
  s ≠ "" → (0 < n)%nat → String.substring 0 n s ≠ "".
Proof. destruct s, n; simpl; (done || lia || discriminate). Qed.

Lemma str_finite_nonempty (c : N) (e : Z) : str_finite c e ≠ "".
Proof.
  unfold str_finite.
  set (dotplace := if (e <=? 0) && (-6 <? e + Z.of_nat (String.length (str_int c)))
                   then e + Z.of_nat (String.length (str_int c)) else 1).
  assert (Hb : (if dotplace <=? 0
      then "0" +:+ "." +:+ zeros (Z.to_nat (- dotplace)) +:+ str_int c
      else if Z.of_nat (String.length (str_int c)) <=? dotplace
        then str_int c +:+ zeros (Z.to_nat (dotplace - Z.of_nat (String.length (str_int c))))
        else String.substring 0 (Z.to_nat dotplace) (str_int c) +:+ "." +:+
             String.substring (Z.to_nat dotplace)
               (Z.to_nat (Z.of_nat (String.length (str_int c)) - dotplace)) (str_int c)) ≠ "").
  { destruct (dotplace <=? 0) eqn:Hd; [discriminate|].
    destruct (_ <=? dotplace).
    - apply app_nonempty_l, str_int_nonempty.
    - apply app_nonempty_l, substring_0_nonempty; [apply str_int_nonempty|lia]. }
  destruct (_ =? dotplace); [done|]. by apply app_nonempty_l.
Qed.

(** [str(d)] is never empty and holds no whitespace, so trimming
    leaves it as it is. *)
Lemma str_no_space (d : Decimal) : no_space (str d) = true.
Proof.
  destruct d as [s c e|s|s sig p]; simpl.
  - rewrite no_space_app, str_finite_no_space. by destruct s.
  - by destruct s.
  - rewrite !no_space_app. destruct s, sig, (p =? 0)%N; simpl;
      rewrite ?str_int_no_space; done.
Qed.

Lemma str_nonempty (d : Decimal) : str d ≠ "".
Proof.
  destruct d as [s c e|s|s sig p]; simpl.
  - apply app_nonempty_r, str_finite_nonempty.
  - by destruct s.
  - destruct s, sig; discriminate.
Qed.

Lemma strip_str (d : Decimal) : strip (str d) = str d.
Proof. apply strip_no_space, str_no_space. Qed.

Lemma truthy_str (d : Decimal) : truthy (str d) = true.
Proof. apply truthy_true, str_nonempty. Qed.

End DecimalFacts.

(** ** Facts about the tokenizer *)

Section TokenizerFacts.

(** [is_numeric] cleans its argument as [clean_amount] does. *)
Lemma clean_amount_cleaned (value : string) :
  clean_amount value = strip (remove_char "'" (remove_char "," value)).
Proof. unfold clean_amount. by rewrite remove_char_comm. Qed.

Lemma is_numeric_looks (t : string) : is_numeric t = true ↔ looks_numeric t.
Proof.
  unfold is_numeric, looks_numeric, of_str. cbv zeta.
  destruct (truthy _) eqn:Ht.
  - apply truthy_true in Ht. destruct (parse _) as [d|]; split.
    + by eauto.
    + done.
    + done.
    + intros [_ [? ?]]. done.
  - apply truthy_false in Ht. split; [done|]. by intros [? _].
Qed.

Lemma is_numeric_clean (t : string) :
  is_numeric t = true →
  clean_amount t ≠ "" ∧ ∃ d, of_str (clean_amount t) = Ok d.
Proof.
  intros [Hne [d Hd]]%is_numeric_looks.
  rewrite clean_amount_cleaned. split; [done|].
  exists d. unfold of_str. by rewrite Hd.
Qed.

Lemma at_dollar_no_space (rest : string) :
  no_space rest = true → at_dollar rest = is_empty rest.
Proof.
  destruct rest as [|c [|c' r]]; simpl; try done.
  destruct (Ascii.eqb c "010") eqn:Hc; [|done].
  by apply Ascii.eqb_eq in Hc as ->.
Qed.

(** On a part of a split line [is_date] is the date pattern: the
    newline that [$] tolerates cannot occur in it. *)
Lemma is_date_pattern (t : string) :
  no_space t = true → is_date t = date_pattern t.
Proof.
  intros H. unfold is_date, date_pattern.
  do 8 (destruct t as [|? t]; [done|];
        simpl in H; apply andb_true_iff in H as [_ H]).
  by rewrite at_dollar_no_space.
Qed.

Lemma find_numeric_None (i : nat) (l : list string) :
  find_numeric i l = None ↔ Forall (λ t, is_numeric t = false) l.
Proof.
  revert i. induction l as [|p l IH]; intros i; simpl.
  - split; [constructor|done].
  - destruct (is_numeric p) eqn:Hp.
    + split; [done|]. intros H. inversion H; congruence.
    + rewrite IH. split; [by constructor|]. by inversion 1.
Qed.

Lemma find_numeric_Some (i j : nat) (l : list string) (part : string) :
  find_numeric i l = Some (j, part) →
  ∃ l1 l2, l = l1 ++ part :: l2
           ∧ Forall (λ t, is_numeric t = false) l1
           ∧ is_numeric part = true
           ∧ j = (i + length l1)%nat.
Proof.
  revert i. induction l as [|p l IH]; intros i; simpl; [done|].
  destruct (is_numeric p) eqn:Hp.
  - intros [= <- <-]. exists [], l. repeat split; [constructor|done|simpl; lia].
  - intros (l1 & l2 & -> & Hl1 & Hpart & ->)%IH.
    exists (p :: l1), l2. repeat split; [by constructor|done|simpl; lia].
Qed.

(** What the backward scan for the amount returns. *)
Lemma find_amount_spec (parts : list string) (n : nat) :
  match find_amount parts n with
  | (Some a, k) =>
      ∃ part, parts !! Z.to_nat k = Some part ∧ is_numeric part = true
              ∧ a = clean_amount part ∧ 1 ≤ k ≤ Z.of_nat n
  | (None, k) =>
      k = -1 ∧ ∀ i part, (1 ≤ i ≤ n)%nat → parts !! i = Some part →
                         is_numeric part = false
  end.
Proof.
  induction n as [|n IH]; simpl.
  - split; [done|]. intros; lia.
  - destruct (parts !! S n) as [part|] eqn:Hn.
    + destruct (is_numeric part) eqn:Hp.
      * exists part. rewrite Nat2Z.id. repeat split; (done || lia).
      * destruct (find_amount parts n) as [[a|] k].
        -- destruct IH as (q & ? & ? & ? & ?). exists q.
           repeat split; (done || lia).
        -- destruct IH as [-> IH]. split; [done|].
           intros i q Hi Hq. destruct (decide (i = S n)) as [->|].
           ++ congruence.
           ++ apply (IH i); [lia|done].
    + destruct (find_amount parts n) as [[a|] k].
      * destruct IH as (q & ? & ? & ? & ?). exists q.
        repeat split; (done || lia).
      * destruct IH as [-> IH]. split; [done|].
        intros i q Hi Hq. destruct (decide (i = S n)) as [->|].
        -- congruence.
        -- apply (IH i); [lia|done].
Qed.

(** The shape of every accepted line. *)
Lemma extract_Some_inv (line : string) (pf : ParsedFields) :
  extract_transaction_data line = Some pf →
  let parts := split line in
  (3 ≤ length parts)%nat
  ∧ is_date (parts !!! 0%nat) = true
  ∧ date pf = parts !!! 0%nat
  ∧ ∃ l1 part l2,
      parts = l1 ++ part :: l2
      ∧ is_numeric part = true
      ∧ Forall (λ t, is_numeric t = false) l2
      ∧ balance pf = clean_amount part
      ∧ let '(a, k) := find_amount parts (Z.to_nat (Z.of_nat (length l1) - 1)) in
        amount pf = a
        ∧ description pf =
            strip (join " " (if 0 <? k then slice parts 1 k
                             else slice parts 1 (Z.of_nat (length l1)))).
Proof.
  unfold extract_transaction_data. cbv zeta.
  destruct (length (split line) <? 3)%nat eqn:Hlen; [done|].
  apply Nat.ltb_ge in Hlen.
  destruct (is_date (split line !!! 0%nat)) eqn:Hdate; [|done]. simpl.
  destruct (find_numeric 0 (reverse (split line))) as [[i part]|] eqn:Hf;
    [|done].
  apply find_numeric_Some in Hf as (r1 & r2 & Hrev & Hr1 & Hpart & ->).
  destruct (is_numeric_clean part Hpart) as [Hne _].
  apply truthy_true in Hne. simpl. rewrite Hne. simpl.
  assert (Hparts : split line = reverse r2 ++ part :: reverse r1).
  { rewrite <- (reverse_involutive (split line)), Hrev.
    rewrite reverse_app, reverse_cons, <- app_assoc. done. }
  assert (Hidx : Z.of_nat (length (split line)) - 1 - Z.of_nat (length r1)
                 = Z.of_nat (length (reverse r2))).
  { rewrite Hparts, length_app. simpl. rewrite !length_reverse. lia. }
  rewrite Hidx.
  destruct (find_amount _ _) as [a k] eqn:Ha.
  intros [= <-]. simpl. repeat split; [done|].
  exists (reverse r2), part, (reverse r1).
  split; [done|]. split; [done|]. split; [by apply Forall_reverse|].
  split; [done|]. by rewrite Ha.
Qed.

End TokenizerFacts.

(** ** Transactions as dictionaries *)

Section TransactionFacts.
Context (a b c d e : string).

Lemma get_Date : get (mk_transaction a b c d e) "Date" = a.
Proof. unfold get, mk_transaction. by simplify_map_eq. Qed.

Lemma get_Description : get (mk_transaction a b c d e) "Description" = b.
Proof. unfold get, mk_transaction. by simplify_map_eq. Qed.

Lemma get_Debit : get (mk_transaction a b c d e) "Debit" = c.
Proof. unfold get, mk_transaction. by simplify_map_eq. Qed.

Lemma get_Credit : get (mk_transaction a b c d e) "Credit" = d.
Proof. unfold get, mk_transaction. by simplify_map_eq. Qed.

Lemma get_Balance : get (mk_transaction a b c d e) "Balance" = e.
Proof. unfold get, mk_transaction. by simplify_map_eq. Qed.

End TransactionFacts.

(** ** Claims about the tokenizer *)

Section TokenizerClaims.

Lemma lookup_total_head (parts : list string) :
  (1 ≤ length parts)%nat → parts !!! 0%nat ∈ parts.
Proof. destruct parts; simpl; [lia|]. intros _. apply list_elem_of_here. Qed.

Lemma head_date_pattern (line : string) :
  (1 ≤ length (split line))%nat →
  is_date (split line !!! 0%nat) = date_pattern (split line !!! 0%nat).
Proof.
  intros Hlen. apply is_date_pattern.
  pose proof (split_parts line) as Hall.
  rewrite Forall_forall in Hall.
  by apply Hall, lookup_total_head.
Qed.

(** Why a line is rejected. *)
Lemma extract_None_cases (line : string) :
  extract_transaction_data line = None →
  (length (split line) < 3)%nat
  ∨ is_date (split line !!! 0%nat) = false
  ∨ Forall (λ t, is_numeric t = false) (split line).
Proof.
  unfold extract_transaction_data. cbv zeta.
  destruct (length (split line) <? 3)%nat eqn:Hlen.
  { apply Nat.ltb_lt in Hlen. by left. }
  destruct (is_date (split line !!! 0%nat)) eqn:Hdate; [|by right; left].
  simpl.
  destruct (find_numeric 0 (reverse (split line))) as [[i part]|] eqn:Hf.
  - apply find_numeric_Some in Hf as (r1 & r2 & _ & _ & Hpart & _).
    destruct (is_numeric_clean part Hpart) as [Hne%truthy_true _].
    simpl. rewrite Hne. simpl. by destruct (find_amount _ _).
  - intros _. right; right.
    apply find_numeric_None in Hf. apply Forall_reverse in Hf.
    by rewrite reverse_involutive in Hf.
Qed.

(** C6.  The tokenizer rejects a line exactly when it has fewer than
    three whitespace-delimited tokens, or its first token does not have
    the shape of two digits, dot, two digits, dot, two digits, or none
    of its tokens looks numeric; every other line yields parsed
    fields. *)
Theorem extract_transaction_data_rejects_iff (line : string) :
  extract_transaction_data line = None
  ↔ ((length (split line) < 3)%nat
     ∨ date_pattern (split line !!! 0%nat) = false
     ∨ Forall (λ t, ¬ looks_numeric t) (split line)).
Proof.
  split.
  - intros [Hlen|[Hdate|Hnum]]%extract_None_cases.
    + by left.
    + destruct (decide (length (split line) < 3)%nat) as [|Hge]; [by left|].
      right; left. rewrite <- head_date_pattern; [done|lia].
    + right; right. eapply Forall_impl; [exact Hnum|].
      intros t Ht Hl%is_numeric_looks. congruence.
  - intros Hcases.
    destruct (extract_transaction_data line) as [pf|] eqn:He; [|done].
    exfalso. apply extract_Some_inv in He.
    destruct He as (Hlen & Hdate & _ & l1 & part & l2 & Hparts & Hpart & _).
    destruct Hcases as [Hlt|[Hpat|Hnone]].
    + lia.
    + rewrite head_date_pattern in Hdate; [congruence|lia].
    + rewrite Forall_forall in Hnone. apply (Hnone part).
      * rewrite Hparts. apply elem_of_app. right. apply list_elem_of_here.
      * by apply is_numeric_looks.
Qed.

(** C4, amended.  The balance stored by the tokenizer is the rightmost
    token that is numeric with its commas and apostrophes removed (and
    trimmed), and that same string is the Balance of the record the
    parser emits for the line. *)
Theorem balance_is_cleaned_rightmost_numeric (line : string) (pf : ParsedFields) :
  extract_transaction_data line = Some pf →
  ∃ l1 part l2,
    split line = l1 ++ part :: l2
    ∧ is_numeric part = true
    ∧ Forall (λ t, is_numeric t = false) l2
    ∧ balance pf = clean_amount part
    ∧ ∀ prev transaction current_balance,
        process_line prev line = Ok (Some (transaction, current_balance)) →
        get transaction "Balance" = clean_amount part.
Proof.
  intros He. pose proof (extract_Some_inv line pf He) as Hinv.
  destruct Hinv as (_ & _ & _ & l1 & part & l2 & Hparts & Hpart & Hl2 & Hbal & _).
  exists l1, part, l2. repeat split; try done.
  intros prev tr cur. unfold process_line. rewrite He.
  destruct (of_str (balance pf)) as [cb|]; [|done]. simpl.
  destruct (if truthy_opt (amount pf) then _ else _) as [am|]; [|done].
  simpl.
  destruct (match prev with Some _ => _ | None => _ end) as [dc|]; [|done].
  simpl. intros [= <- _]. by rewrite get_Balance.
Qed.

Lemma balance_is_cleaned_rightmost_numeric_witness :
  ∃ l1 part l2,
    split "01.02.24 GROCERY STORE 45.00 1,000.00" = l1 ++ part :: l2
    ∧ is_numeric part = true
    ∧ Forall (λ t, is_numeric t = false) l2
    ∧ "1000.00" = clean_amount part
    ∧ ∀ prev transaction current_balance,
        process_line prev "01.02.24 GROCERY STORE 45.00 1,000.00"
          = Ok (Some (transaction, current_balance)) →
        get transaction "Balance" = clean_amount part.
Proof.
  apply (balance_is_cleaned_rightmost_numeric
           "01.02.24 GROCERY STORE 45.00 1,000.00"
           {| date := "01.02.24"; description := "GROCERY STORE";
              amount := Some "45.00"; balance := "1000.00" |}).
  vm_compute. exact eq_refl.
Defined.

(** C4 as stated fails: the stored balance of this line is "1000.00",
    which is not one of its tokens (the token is "1,000.00"). *)
Lemma balance_not_a_token :
  extract_transaction_data "01.02.24 GROCERY STORE 45.00 1,000.00"
    = Some {| date := "01.02.24"; description := "GROCERY STORE";
              amount := Some "45.00"; balance := "1000.00" |}
  ∧ split "01.02.24 GROCERY STORE 45.00 1,000.00"
    = ["01.02.24"; "GROCERY"; "STORE"; "45.00"; "1,000.00"]
  ∧ "1000.00" ∉ split "01.02.24 GROCERY STORE 45.00 1,000.00".
Proof.
  split; [vm_compute; exact eq_refl|]. split; [vm_compute; exact eq_refl|].
  vm_compute split. intros H.
  repeat (apply elem_of_cons in H as [H|H]; [discriminate H|]).
  by apply not_elem_of_nil in H.
Qed.

End TokenizerClaims.

(** ** Claims about the statement parser, line by line *)

Section ParserLineClaims.

(** The numeric strings of accepted fields are accepted by [Decimal]. *)
Lemma extract_fields_parse (line : string) (pf : ParsedFields) :
  extract_transaction_data line = Some pf →
  (∃ d, of_str (balance pf) = Ok d)
  ∧ ∀ a, amount pf = Some a → a ≠ "" ∧ ∃ d, of_str a = Ok d.
Proof.
  intros He. apply extract_Some_inv in He.
  destruct He as (_ & _ & _ & l1 & part & l2 & _ & Hpart & _ & Hbal & Ham).
  split.
  - rewrite Hbal. by apply is_numeric_clean.
  - intros a Ha.
    pose proof (find_amount_spec (split line)
                  (Z.to_nat (Z.of_nat (length l1) - 1))) as Hspec.
    destruct (find_amount _ _) as [[a'|] k].
    + destruct Ham as [Ham _]. rewrite Ham in Ha. injection Ha as ->.
      destruct Hspec as (q & _ & Hq & -> & _). by apply is_numeric_clean.
    + destruct Ham as [Ham _]. congruence.
Qed.

Lemma emitted_inj {A B} (a a' : A) (b b' : B) :
  Ok (Some (a, b)) = Ok (Some (a', b')) → a = a' ∧ b = b'.
Proof. by intros [= -> ->]. Qed.

(** What an emitted record is made of. *)
Lemma process_line_emits (prev : option Decimal) (line : string)
    (transaction : Transaction) (current_balance : Decimal) :
  process_line prev line = Ok (Some (transaction, current_balance)) →
  ∃ pf debit credit,
    extract_transaction_data line = Some pf
    ∧ of_str (balance pf) = Ok current_balance
    ∧ transaction = mk_transaction (date pf) (description pf) debit credit
                      (balance pf)
    ∧ match prev, amount pf with
      | Some p, Some a =>
          ∃ da, of_str a = Ok da
                ∧ ((gt current_balance p = Ok true
                    ∧ credit = str da ∧ debit = "")
                   ∨ (gt current_balance p = Ok false
                      ∧ debit = str da ∧ credit = ""))
      | _, _ => debit = "" ∧ credit = ""
      end.
Proof.
  unfold process_line.
  destruct (extract_transaction_data line) as [pf|] eqn:He; [|done].
  destruct (extract_fields_parse line pf He) as [[cb Hcb] Hamount].
  rewrite Hcb. simpl.
  destruct (amount pf) as [a|] eqn:Ha.
  - destruct (Hamount a eq_refl) as [Hne%truthy_true [da Hda]].
    simpl. rewrite Hne, Hda. simpl.
    destruct prev as [p|]; simpl.
    + destruct (gt cb p) as [[]|] eqn:Hgt; simpl; [| |done];
        intros [<- <-]%emitted_inj; exists pf; eexists _, _;
        (split; [done|]); (split; [done|]); (split; [done|]);
        rewrite Ha; exists da; (split; [done|]); rewrite Hgt;
        [left|right]; done.
    + by intros [<- <-]%emitted_inj; exists pf, "", "".
  - simpl. intros H.
    assert (Hdc : transaction = mk_transaction (date pf) (description pf)
                                  "" "" (balance pf)
                  ∧ current_balance = cb).
    { destruct prev; simpl in H; by apply emitted_inj in H as [<- <-]. }
    destruct Hdc as [-> ->]. exists pf, "", "".
    rewrite Ha. by destruct prev.
Qed.

(** C1.  For every line the tokenizer accepts, the balance parses and
    the line loop is determined by the previous balance and the amount:
    when the previous balance is known and an amount was found, the
    record is emitted with Credit the amount and Debit empty if the
    current balance is greater than the previous one, and with Debit the
    amount and Credit empty otherwise (equal or lower), the line being
    left to the handler only when the comparison itself raises; when
    the previous balance is unknown or the amount absent, the record is
    emitted with both empty.  Conversely every emitted record is
    classified this way, so the classification is attempted only with a
    known previous balance and an amount. *)
Theorem debit_credit_classification (prev : option Decimal) (line : string)
    (pf : ParsedFields) :
  extract_transaction_data line = Some pf →
  (∃ current_balance,
     of_str (balance pf) = Ok current_balance
     ∧ match prev, amount pf with
       | Some previous_balance, Some a =>
           ∃ da, of_str a = Ok da
             ∧ (gt current_balance previous_balance = Ok true →
                process_line prev line
                = Ok (Some (mk_transaction (date pf) (description pf)
                              "" (str da) (balance pf), current_balance)))
             ∧ (gt current_balance previous_balance = Ok false →
                process_line prev line
                = Ok (Some (mk_transaction (date pf) (description pf)
                              (str da) "" (balance pf), current_balance)))
             ∧ (∀ e, gt current_balance previous_balance = Raise e →
                     process_line prev line = Raise e)
       | _, _ =>
           process_line prev line
           = Ok (Some (mk_transaction (date pf) (description pf)
                         "" "" (balance pf), current_balance))
       end)
  ∧ ∀ transaction current_balance,
      process_line prev line = Ok (Some (transaction, current_balance)) →
      of_str (balance pf) = Ok current_balance
      ∧ match prev, amount pf with
        | Some previous_balance, Some a =>
            ∃ da, of_str a = Ok da
                  ∧ ((gt current_balance previous_balance = Ok true
                      ∧ get transaction "Credit" = str da
                      ∧ get transaction "Debit" = "")
                     ∨ (gt current_balance previous_balance = Ok false
                        ∧ get transaction "Debit" = str da
                        ∧ get transaction "Credit" = ""))
        | _, _ =>
            get transaction "Debit" = "" ∧ get transaction "Credit" = ""
        end.
Proof.
  intros He. split.
  - destruct (extract_fields_parse line pf He) as [[cb Hcb] Hamount].
    exists cb. split; [done|].
    unfold process_line. rewrite He, Hcb. simpl.
    destruct (amount pf) as [a|] eqn:Ha.
    + destruct (Hamount a eq_refl) as [Hne%truthy_true [da Hda]].
      simpl. rewrite Hne, Hda. simpl.
      destruct prev as [p|]; simpl; [|done].
      exists da. split; [done|].
      split; [|split]; [intros Hgt|intros Hgt|intros e Hgt];
        by rewrite Hgt.
    + simpl. by destruct prev.
  - intros transaction cb Hp.
    apply process_line_emits in Hp
      as (pf' & debit & credit & He' & Hcb & -> & Hdc).
    rewrite He in He'. injection He' as <-.
    split; [done|]. rewrite get_Debit, get_Credit. exact Hdc.
Qed.

(** Scenario A of the specification, a line whose balance has risen, and
    a first line. *)
Lemma debit_credit_classification_witness :
  process_line (Some (DFinite false 104500 (-2)))
    "01.02.24 GROCERY STORE 45.00 1,000.00"
  = Ok (Some (mk_transaction "01.02.24" "GROCERY STORE" "45.00" "" "1000.00",
              DFinite false 100000 (-2)))
  ∧ process_line (Some (DFinite false 95500 (-2)))
      "01.02.24 GROCERY STORE 45.00 1,000.00"
    = Ok (Some (mk_transaction "01.02.24" "GROCERY STORE" "" "45.00" "1000.00",
                DFinite false 100000 (-2)))
  ∧ process_line None "01.02.24 GROCERY STORE 45.00 1,000.00"
    = Ok (Some (mk_transaction "01.02.24" "GROCERY STORE" "" "" "1000.00",
                DFinite false 100000 (-2))).
Proof.
  assert (He : extract_transaction_data "01.02.24 GROCERY STORE 45.00 1,000.00"
               = Some {| date := "01.02.24"; description := "GROCERY STORE";
                         amount := Some "45.00"; balance := "1000.00" |})
    by (vm_compute; exact eq_refl).
  assert (Hbal : of_str "1000.00" = Ok (DFinite false 100000 (-2)))
    by (vm_compute; exact eq_refl).
  assert (Ham : of_str "45.00" = Ok (DFinite false 4500 (-2)))
    by (vm_compute; exact eq_refl).
  split; [|split].
  - destruct (debit_credit_classification (Some (DFinite false 104500 (-2)))
                _ _ He) as [(cur & Hcur & da & Hda & _ & Hdebit & _) _].
    cbn [balance] in Hcur. rewrite Hbal in Hcur. injection Hcur as <-.
    rewrite Ham in Hda. injection Hda as <-.
    rewrite Hdebit; vm_compute; exact eq_refl.
  - destruct (debit_credit_classification (Some (DFinite false 95500 (-2)))
                _ _ He) as [(cur & Hcur & da & Hda & Hcredit & _ & _) _].
    cbn [balance] in Hcur. rewrite Hbal in Hcur. injection Hcur as <-.
    rewrite Ham in Hda. injection Hda as <-.
    rewrite Hcredit; vm_compute; exact eq_refl.
  - destruct (debit_credit_classification None _ _ He)
      as [(cur & Hcur & Hnone) _].
    cbn [balance] in Hcur. rewrite Hbal in Hcur. injection Hcur as <-.
    exact Hnone.
Defined.

End ParserLineClaims.

(** ** Exceptions while a line is processed *)

Section ParserErrorClaims.

(** C9, amended.  For every ParsedFields returned by the tokenizer the
    balance string, and the amount string when present, is accepted by
    [Decimal]: the lenient check cleans and parses as the stored
    normalisation does, so neither construction in the parser raises.
    The handler of the line loop is entered only when the comparison of
    the current with the previous balance involves a NaN. *)
Theorem accepted_fields_parse (line : string) (pf : ParsedFields) :
  extract_transaction_data line = Some pf →
  (∃ d, of_str (balance pf) = Ok d)
  ∧ (∀ a, amount pf = Some a → a ≠ "" ∧ ∃ d, of_str a = Ok d)
  ∧ ∀ prev e,
      process_line prev line = Raise e →
      ∃ previous_balance current_balance a da,
        prev = Some previous_balance
        ∧ of_str (balance pf) = Ok current_balance
        ∧ amount pf = Some a
        ∧ of_str a = Ok da
        ∧ gt current_balance previous_balance = Raise e
        ∧ is_nan current_balance || is_nan previous_balance = true.
Proof.
  intros He. destruct (extract_fields_parse line pf He) as [[cb Hcb] Hamount].
  split; [by exists cb|]. split; [done|].
  intros prev e. unfold process_line. rewrite He, Hcb. simpl.
  destruct (amount pf) as [a|] eqn:Ha.
  - destruct (Hamount a eq_refl) as [Hne%truthy_true [da Hda]].
    simpl. rewrite Hne, Hda. simpl.
    destruct prev as [p|]; simpl; [|done].
    destruct (gt cb p) as [[]|e'] eqn:Hgt; simpl; [done|done|].
    intros [= ->]. exists p, cb, a, da. repeat split; try done.
    unfold gt in Hgt. by destruct (is_nan cb || is_nan p).
  - simpl. by destruct prev.
Qed.

Lemma accepted_fields_parse_witness :
  (∃ d, of_str "5" = Ok d)
  ∧ (∀ a, Some "2" = Some a → a ≠ "" ∧ ∃ d, of_str a = Ok d)
  ∧ ∀ prev e,
      process_line prev "02.02.24 b 2 5" = Raise e →
      ∃ previous_balance current_balance a da,
        prev = Some previous_balance
        ∧ of_str "5" = Ok current_balance
        ∧ Some "2" = Some a
        ∧ of_str a = Ok da
        ∧ gt current_balance previous_balance = Raise e
        ∧ is_nan current_balance || is_nan previous_balance = true.
Proof.
  apply (accepted_fields_parse "02.02.24 b 2 5"
           {| date := "02.02.24"; description := "b";
              amount := Some "2"; balance := "5" |}).
  vm_compute. exact eq_refl.
Defined.

(** C9 as stated fails: both lines below are accepted by the tokenizer,
    the first leaves NaN as the previous balance, and the second then
    ends in the handler of the line loop (logged and skipped). *)
Lemma handler_reached_on_accepted_line :
  extract_transaction_data "02.02.24 b 2 5"
    = Some {| date := "02.02.24"; description := "b";
              amount := Some "2"; balance := "5" |}
  ∧ process_line (Some (DNaN false false 0)) "02.02.24 b 2 5"
    = Raise InvalidOperation
  ∧ parser_log (parse_pages [Some "01.02.24 a 1 NaN"; Some "02.02.24 b 2 5"])
    = [LineError 1 2 InvalidOperation]
  ∧ transactions (parse_pages [Some "01.02.24 a 1 NaN"; Some "02.02.24 b 2 5"])
    = [mk_transaction "01.02.24" "a" "" "" "NaN"].
Proof. repeat split; vm_compute; exact eq_refl. Qed.

End ParserErrorClaims.

(** ** Lines whose only numeric token follows the date *)

Section BalanceOnlyLines.

Lemma validate_loop_app (st : validator_state) (l1 l2 : list Transaction) :
  validate_loop st (l1 ++ l2)
  = (st' ← validate_loop st l1; validate_loop st' l2).
Proof.
  revert st. induction l1 as [|t l1 IH]; intros st; simpl; [done|].
  destruct (validate_one (validator_prev st) t) as [[[t' cur]|]|e];
    rewrite ?IH; try done.
  by destruct (handled e).
Qed.

(** A record whose Description is empty after trimming is dropped. *)
Lemma validate_one_empty_description (prev : option Decimal)
    (transaction : Transaction) :
  strip (get transaction "Description") = "" →
  validate_one prev transaction = Ok None.
Proof.
  intros H. unfold validate_one. rewrite H. simpl.
  by rewrite andb_false_r.
Qed.

Lemma slice_1_1 (parts : list string) : slice parts 1 1 = [].
Proof. unfold slice. by rewrite Nat.sub_diag. Qed.

(** C10, amended.  For every line of at least three tokens that starts
    with a date and whose only numeric token is the one right after the
    date, the tokenizer accepts the line with an absent amount and an
    empty description; the parser emits a record for it, and the
    validator drops that record wherever it stands in its input. *)
Theorem balance_only_line_accepted_then_dropped (line : string) :
  (3 ≤ length (split line))%nat →
  is_date (split line !!! 0%nat) = true →
  is_numeric (split line !!! 1%nat) = true →
  (∀ i t, i ≠ 1%nat → split line !! i = Some t → is_numeric t = false) →
  extract_transaction_data line
    = Some {| date := split line !!! 0%nat; description := "";
              amount := None;
              balance := clean_amount (split line !!! 1%nat) |}
  ∧ ∀ prev, ∃ transaction current_balance,
      process_line prev line = Ok (Some (transaction, current_balance))
      ∧ get transaction "Description" = ""
      ∧ (∀ vprev, validate_one vprev transaction = Ok None)
      ∧ ∀ before after,
          validate_transactions (before ++ transaction :: after)
          = validate_transactions (before ++ after).
Proof.
  intros Hlen Hdate Hnum Honly.
  assert (Hex : extract_transaction_data line
                = Some {| date := split line !!! 0%nat; description := "";
                          amount := None;
                          balance := clean_amount (split line !!! 1%nat) |}).
  { destruct (extract_transaction_data line) as [pf|] eqn:He.
    - pose proof (extract_Some_inv line pf He) as Hinv. cbv zeta in Hinv.
      destruct Hinv as (_ & _ & Hd & l1 & part & l2 & Hparts & Hpart & _
                        & Hbal & Hrest).
      assert (Hl1 : length l1 = 1%nat).
      { destruct (decide (length l1 = 1%nat)) as [|Hne]; [done|].
        rewrite (Honly (length l1) part Hne) in Hpart; [done|].
        rewrite Hparts. by apply list_lookup_middle. }
      assert (Hp1 : split line !!! 1%nat = part).
      { apply list_lookup_total_correct. rewrite Hparts, <- Hl1.
        by apply list_lookup_middle. }
      rewrite Hl1 in Hrest. simpl in Hrest. rewrite slice_1_1 in Hrest.
      destruct Hrest as [Ham Hdesc]. simpl in Hdesc.
      destruct pf as [d ds am b]. simpl in *. by subst.
    - apply extract_None_cases in He as [Hlt|[Hnd|Hnone]].
      + lia.
      + congruence.
      + rewrite Forall_forall in Hnone.
        rewrite (Hnone (split line !!! 1%nat)) in Hnum; [done|].
        apply list_elem_of_lookup_total_2. lia. }
  split; [done|]. intros prev.
  destruct (is_numeric_clean _ Hnum) as [_ [cb Hcb]].
  exists (mk_transaction (split line !!! 0%nat) "" "" ""
            (clean_amount (split line !!! 1%nat))), cb.
  assert (Hdrop : ∀ vprev,
    validate_one vprev (mk_transaction (split line !!! 0%nat) "" "" ""
                          (clean_amount (split line !!! 1%nat))) = Ok None).
  { intros vprev. apply validate_one_empty_description.
    by rewrite get_Description. }
  split.
  { unfold process_line. rewrite Hex. simpl. rewrite Hcb. simpl.
    by destruct prev. }
  split; [by rewrite get_Description|]. split; [done|].
  intros before after. unfold validate_transactions.
  rewrite !validate_loop_app.
  destruct (validate_loop validator_init before) as [st|e]; [|done].
  simpl. by rewrite Hdrop.
Qed.

Lemma balance_only_line_witness :
  extract_transaction_data "01.02.24 100.00 foo"
    = Some {| date := split "01.02.24 100.00 foo" !!! 0%nat;
              description := ""; amount := None;
              balance := clean_amount (split "01.02.24 100.00 foo" !!! 1%nat) |}
  ∧ ∀ prev, ∃ transaction current_balance,
      process_line prev "01.02.24 100.00 foo"
        = Ok (Some (transaction, current_balance))
      ∧ get transaction "Description" = ""
      ∧ (∀ vprev, validate_one vprev transaction = Ok None)
      ∧ ∀ before after,
          validate_transactions (before ++ transaction :: after)
          = validate_transactions (before ++ after).
Proof.
  apply (balance_only_line_accepted_then_dropped "01.02.24 100.00 foo").
  - vm_compute. lia.
  - vm_compute. exact eq_refl.
  - vm_compute. exact eq_refl.
  - assert (Hs : split "01.02.24 100.00 foo" = ["01.02.24"; "100.00"; "foo"])
      by (vm_compute; exact eq_refl).
    intros i t Hi. rewrite Hs.
    destruct i as [|[|[|i]]]; cbn [lookup list_lookup].
    + intros [= <-]. vm_compute. exact eq_refl.
    + congruence.
    + intros [= <-]. vm_compute. exact eq_refl.
    + intros [=].
Defined.

(** C10 as stated fails on a line of two tokens: the only numeric token
    of this line is the one right after the date, and the tokenizer
    rejects the line. *)
Lemma two_token_line_rejected :
  split "01.02.24 100.00" = ["01.02.24"; "100.00"]
  ∧ is_date "01.02.24" = true
  ∧ is_numeric "01.02.24" = false
  ∧ is_numeric "100.00" = true
  ∧ extract_transaction_data "01.02.24 100.00" = None.
Proof. repeat split; vm_compute; exact eq_refl. Qed.

End BalanceOnlyLines.

(** ** The validator, record by record *)

Section ValidatorFacts.

(** What a kept record is made of. *)
Lemma validate_one_kept (prev : option Decimal) (t t' : Transaction)
    (cur : Decimal) :
  validate_one prev t = Ok (Some (t', cur)) →
  strip (get t "Date") ≠ ""
  ∧ strip (get t "Description") ≠ ""
  ∧ strip (get t "Balance") ≠ ""
  ∧ of_str (strip (get t "Balance")) = Ok cur
  ∧ ∃ debit' credit',
      t' = mk_transaction (strip (get t "Date"))
             (strip (get t "Description")) debit' credit'
             (strip (get t "Balance"))
      ∧ repaired prev cur (strip (get t "Debit")) (strip (get t "Credit"))
          debit' credit'.
Proof.
  unfold validate_one. cbv zeta.
  destruct (truthy (strip (get t "Date"))) eqn:Hd; [|done].
  destruct (truthy (strip (get t "Description"))) eqn:Hs; [|done].
  destruct (truthy (strip (get t "Balance"))) eqn:Hb; [|done].
  apply truthy_true in Hd, Hs, Hb. simpl.
  destruct (of_str (strip (get t "Balance"))) as [cb|] eqn:Hcb; [|done].
  simpl.
  destruct prev as [p|]; simpl.
  - destruct (sub cb p) as [diff|] eqn:Hsub; [|done]. simpl.
    destruct (abs diff) as [bd|] eqn:Habs; [|done]. simpl.
    destruct (truthy (strip (get t "Debit")) || truthy (strip (get t "Credit")))
      eqn:Hdc; simpl.
    + intros [<- <-]%emitted_inj. split_and!; try done.
      eexists _, _. split; [done|]. exists diff, bd.
      unfold repaired. rewrite ?Hdc. auto 10.
    + destruct (lt cb p) as [[]|] eqn:Hlt; simpl; [| |done].
      * intros [<- <-]%emitted_inj. split_and!; try done.
        eexists _, _. split; [done|]. exists diff, bd.
        rewrite ?Hdc. auto 10.
      * destruct (gt cb p) as [[]|] eqn:Hgt; simpl; [| |done].
        -- intros [<- <-]%emitted_inj. split_and!; try done.
           eexists _, _. split; [done|]. exists diff, bd.
           rewrite ?Hdc. auto 10.
        -- intros [<- <-]%emitted_inj. split_and!; try done.
           eexists _, _. split; [done|]. exists diff, bd.
           rewrite ?Hdc.
           apply orb_false_iff in Hdc as [Hd'%truthy_false Hc'%truthy_false].
           auto 10.
  - intros [<- <-]%emitted_inj. split_and!; try done.
    by eexists _, _.
Qed.

(** The converse: from trimmed fields and a repair, the record is kept. *)
Lemma validate_one_keeps (prev : option Decimal) (t : Transaction)
    (cur : Decimal) (debit' credit' : string) :
  strip (get t "Date") ≠ "" →
  strip (get t "Description") ≠ "" →
  strip (get t "Balance") ≠ "" →
  of_str (strip (get t "Balance")) = Ok cur →
  repaired prev cur (strip (get t "Debit")) (strip (get t "Credit"))
    debit' credit' →
  validate_one prev t
  = Ok (Some (mk_transaction (strip (get t "Date"))
                (strip (get t "Description")) debit' credit'
                (strip (get t "Balance")), cur)).
Proof.
  intros Hd%truthy_true Hs%truthy_true Hb%truthy_true Hcb Hrep.
  unfold validate_one. cbv zeta. rewrite Hd, Hs, Hb, Hcb. simpl.
  destruct prev as [p|]; simpl in *.
  - destruct Hrep as (diff & bd & Hsub & Habs & Hrep).
    rewrite Hsub. simpl. rewrite Habs. simpl.
    destruct (truthy _ || truthy _) eqn:Hdc; simpl.
    + by destruct Hrep as [-> ->].
    + destruct Hrep as [(-> & -> & ->)|[(-> & -> & -> & ->)|(-> & -> & -> & ->)]];
        simpl; try done.
      apply orb_false_iff in Hdc as [-> %truthy_false -> %truthy_false].
      done.
  - by destruct Hrep as [-> ->].
Qed.

(** One iteration of the validator's loop either keeps the record,
    appending its repaired copy and moving the previous balance to the
    record's balance, or drops it and leaves the lists and the previous
    balance as they were. *)
Lemma validate_loop_step (st st' : validator_state) (t : Transaction) :
  validate_loop st [t] = Ok st' →
  (validated_transactions st' = validated_transactions st
   ∧ validator_prev st' = validator_prev st
   ∧ ∀ t' cur, validate_one (validator_prev st) t ≠ Ok (Some (t', cur)))
  ∨ ∃ t' cur,
      validate_one (validator_prev st) t = Ok (Some (t', cur))
      ∧ validated_transactions st' = validated_transactions st ++ [t']
      ∧ validator_prev st' = Some cur.
Proof.
  simpl.
  destruct (validate_one (validator_prev st) t) as [[[t' cur]|]|e] eqn:Hv.
  - intros [= <-]. right. by exists t', cur.
  - intros [= <-]. by left.
  - destruct (handled e); [|done]. intros [= <-]. by left.
Qed.

End ValidatorFacts.

(** ** Claims about the validator *)

Section ValidatorClaims.

Lemma tracks_last_kept_loop (l : list Transaction) (st st' : validator_state) :
  tracks_last_kept st → validate_loop st l = Ok st' → tracks_last_kept st'.
Proof.
  revert st. induction l as [|t l IH]; intros st Hst; simpl.
  { by intros [= <-]. }
  destruct (validate_one (validator_prev st) t) as [[[t' cur]|]|e] eqn:Hv.
  - apply IH. unfold tracks_last_kept. simpl. rewrite last_snoc.
    apply validate_one_kept in Hv as (_ & _ & _ & Hcur & d' & c' & -> & _).
    exists cur. by rewrite get_Balance.
  - by apply IH.
  - destruct (handled e); [|done]. by apply IH.
Qed.



End ValidatorClaims.

(** ** A second pass of the validator *)

Section ValidatorRerun.

(** Running the validator on a record it has kept keeps the record as
    it is. *)
Lemma validate_one_fixed (prev : option Decimal) (t t' : Transaction)
    (cur : Decimal) :
  validate_one prev t = Ok (Some (t', cur)) →
  validate_one prev t' = Ok (Some (t', cur)).
Proof.
  intros (Hd & Hs & Hb & Hcur & d' & c' & -> & Hrep)%validate_one_kept.
  assert (Hfix : strip d' = d' ∧ strip c' = c'
                 ∧ repaired prev cur (strip d') (strip c') d' c').
  { unfold repaired in *. destruct prev as [p|].
    - destruct Hrep as (diff & bd & Hsub & Habs & Hrep).
      destruct (truthy _ || truthy _) eqn:Hdc.
      + destruct Hrep as [-> ->]. rewrite !strip_idemp.
        split; [done|]. split; [done|]. exists diff, bd. by rewrite Hdc.
      + destruct Hrep as [(Hlt & -> & ->)|[(Hlt & Hgt & -> & ->)|(Hlt & Hgt & -> & ->)]];
          rewrite ?strip_str, ?strip_empty;
          (split; [done|]); (split; [done|]); exists diff, bd;
          rewrite ?truthy_str, ?orb_true_r; simpl; auto 10.
    - destruct Hrep as [-> ->]. by rewrite !strip_idemp. }
  destruct Hfix as (Hd' & Hc' & Hrep').
  pose proof (validate_one_keeps prev
                (mk_transaction (strip (get t "Date"))
                   (strip (get t "Description")) d' c'
                   (strip (get t "Balance"))) cur d' c') as Hk.
  rewrite get_Date, get_Description, get_Balance, get_Debit, get_Credit in Hk.
  rewrite !strip_idemp in Hk. by apply Hk.
Qed.

(** A second run over the records a run has kept, from the same previous
    balance, keeps them all unchanged and ends with the same previous
    balance. *)
Lemma validate_loop_rerun (l : list Transaction) (st st' : validator_state) :
  validate_loop st l = Ok st' →
  ∃ out,
    validated_transactions st' = validated_transactions st ++ out
    ∧ ∀ st2, validator_prev st2 = validator_prev st →
        ∃ st2', validate_loop st2 out = Ok st2'
                ∧ validated_transactions st2' = validated_transactions st2 ++ out
                ∧ validator_prev st2' = validator_prev st'.
Proof.
  revert st. induction l as [|t l IH]; intros st; simpl.
  { intros [= <-]. exists []. rewrite app_nil_r. split; [done|].
    intros st2 Hp. exists st2. by rewrite app_nil_r. }
  destruct (validate_one (validator_prev st) t) as [[[t' cur]|]|e] eqn:Hv.
  - intros (out & Hout & Hre)%IH. simpl in Hout, Hre.
    exists (t' :: out). rewrite <- app_assoc in Hout. split; [done|].
    intros st2 Hp. simpl. rewrite Hp, (validate_one_fixed _ _ _ _ Hv).
    destruct (Hre {| validated_transactions := validated_transactions st2 ++ [t'];
                     validator_prev := Some cur;
                     validator_log := validator_log st2 |} eq_refl)
      as (st2' & Hrun & Hval & Hprev).
    exists st2'. simpl in Hval. rewrite <- app_assoc in Hval. done.
  - by apply IH.
  - destruct (handled e); [|done]. intros (out & Hout & Hre)%IH. by exists out.
Qed.

(** C3.  The validator is idempotent on its own output: validating the
    list a first pass returned gives back that same list, nothing
    dropped and no field changed. *)
Theorem validate_transactions_idempotent (l out : list Transaction) :
  validate_transactions l = Ok out →
  validate_transactions out = Ok out.
Proof.
  unfold validate_transactions.
  destruct (validate_loop validator_init l) as [st|] eqn:Hrun; [|done].
  simpl. intros [= <-].
  apply validate_loop_rerun in Hrun as (out & Hout & Hre). simpl in Hout.
  rewrite Hout.
  destruct (Hre validator_init eq_refl) as (st2 & Hrun2 & Hval & _).
  rewrite Hrun2. simpl. by rewrite Hval.
Qed.

Lemma validate_transactions_idempotent_witness :
  validate_transactions
    [mk_transaction "01.02.24" "GROCERY STORE" "" "" "1000.00";
     mk_transaction "02.02.24" "SALARY" "" "200.00" "1200.00"]
  = Ok [mk_transaction "01.02.24" "GROCERY STORE" "" "" "1000.00";
        mk_transaction "02.02.24" "SALARY" "" "200.00" "1200.00"].
Proof.
  apply (validate_transactions_idempotent
           [mk_transaction " 01.02.24" "GROCERY STORE " "" "" "1000.00";
            mk_transaction "01.02.24" "" "" "" "1100.00";
            mk_transaction "02.02.24" "SALARY" "" "" "1200.00"]).
  vm_compute. exact eq_refl.
Defined.

(** Whatever the record and the balances, a populated Debit or Credit
    of a kept record comes out as the input value with its surrounding
    whitespace trimmed, and as it went in when it has none. *)
Lemma populated_amount_trimmed (previous_balance : Decimal)
    (t t' : Transaction) (current_balance : Decimal) :
  validate_one (Some previous_balance) t = Ok (Some (t', current_balance)) →
  truthy (strip (get t "Debit")) || truthy (strip (get t "Credit")) = true →
  get t' "Debit" = strip (get t "Debit")
  ∧ get t' "Credit" = strip (get t "Credit").
Proof.
  intros (_ & _ & _ & _ & d' & c' & -> & Hrep)%validate_one_kept Hdc.
  rewrite get_Debit, get_Credit. simpl in Hrep.
  destruct Hrep as (diff & bd & _ & _ & Hrep).
  rewrite Hdc in Hrep. by destruct Hrep as [-> ->].
Qed.

End ValidatorRerun.

(** ** Whole runs: the Debit/Credit invariant and the order of records *)

Section RunFacts.

(** An invariant of the parser's state that every emitted record
    maintains holds after any document. *)
Lemma parse_pages_invariant (Inv : list Transaction → Prop) :
  Inv [] →
  (∀ l prev line t cur,
     Inv l → process_line prev line = Ok (Some (t, cur)) → Inv (l ++ [t])) →
  ∀ pages, Inv (transactions (parse_pages pages)).
Proof.
  intros Hinit Hstep pages. unfold parse_pages.
  assert (Hline : ∀ page_num lines st,
    Inv (transactions st) →
    Inv (transactions (foldl (parse_line page_num) st lines))).
  { intros page_num lines. induction lines as [|[n line] lines IH];
      intros st Hst; simpl; [done|].
    apply IH. unfold parse_line.
    destruct (process_line (prev_balance st) line) as [[[t cur]|]|e] eqn:Hp;
      simpl; eauto. }
  assert (Hpage : ∀ numbered st,
    Inv (transactions st) →
    Inv (transactions (foldl parse_page st numbered))).
  { intros numbered. induction numbered as [|[n page] numbered IH];
      intros st Hst; simpl; [done|].
    apply IH. destruct page as [text|]; simpl; [|done].
    destruct (is_empty text); simpl; [done|]. by apply Hline. }
  by apply Hpage.
Qed.

Lemma process_line_at_most_one (prev : option Decimal) (line : string)
    (t : Transaction) (cur : Decimal) :
  process_line prev line = Ok (Some (t, cur)) → at_most_one t.
Proof.
  intros (pf & debit & credit & _ & _ & -> & Hdc)%process_line_emits.
  unfold at_most_one. rewrite get_Debit, get_Credit.
  destruct prev as [p|], (amount pf) as [a|]; try (left; apply Hdc).
  destruct Hdc as (da & _ & [(_ & _ & ->)|(_ & _ & ->)]); auto.
Qed.

Lemma validate_one_at_most_one (prev : option Decimal) (t t' : Transaction)
    (cur : Decimal) :
  at_most_one t → validate_one prev t = Ok (Some (t', cur)) → at_most_one t'.
Proof.
  intros Hone (_ & _ & _ & _ & d' & c' & -> & Hrep)%validate_one_kept.
  unfold at_most_one in *. rewrite get_Debit, get_Credit.
  assert (Hin : strip (get t "Debit") = "" ∨ strip (get t "Credit") = "").
  { destruct Hone as [-> | ->]; auto. }
  unfold repaired in Hrep. destruct prev as [p|].
  - destruct Hrep as (diff & bd & _ & _ & Hrep).
    destruct (truthy _ || truthy _).
    + by destruct Hrep as [-> ->].
    + destruct Hrep as [(_ & _ & ->)|[(_ & _ & -> & _)|(_ & _ & -> & _)]]; auto.
  - by destruct Hrep as [-> ->].
Qed.

Lemma validate_loop_at_most_one (l : list Transaction) (st st' : validator_state) :
  Forall at_most_one l →
  Forall at_most_one (validated_transactions st) →
  validate_loop st l = Ok st' →
  Forall at_most_one (validated_transactions st').
Proof.
  revert st. induction l as [|t l IH]; intros st Hl Hst; simpl.
  { by intros [= <-]. }
  apply Forall_cons in Hl as [Ht Hl].
  destruct (validate_one (validator_prev st) t) as [[[t' cur]|]|e] eqn:Hv.
  - apply IH; [done|]. simpl. apply Forall_app. split; [done|].
    apply Forall_singleton. by eapply validate_one_at_most_one.
  - by apply IH.
  - destruct (handled e); [|done]. by apply IH.
Qed.

(** One iteration of the line loop appends at most the record of its
    line. *)
Lemma parse_line_step (page_num : nat) (st : parser_state) (n : nat)
    (line : string) :
  transactions (parse_line page_num st (n, line)) = transactions st
  ∨ ∃ t, emitted_from line t
         ∧ transactions (parse_line page_num st (n, line))
           = transactions st ++ [t].
Proof.
  unfold parse_line.
  destruct (process_line (prev_balance st) line) as [[[t cur]|]|e] eqn:Hp;
    simpl; auto.
  right. exists t. split; [|done]. by exists (prev_balance st), cur.
Qed.

(** The records a list of lines contributes come from a subsequence of
    the lines, one record per line, in the same order. *)
Lemma parse_lines_order (page_num : nat) (numbered : list (nat * string))
    (st : parser_state) :
  ∃ accepted new,
    accepted `sublist_of` numbered.*2
    ∧ Forall2 emitted_from accepted new
    ∧ transactions (foldl (parse_line page_num) st numbered)
      = transactions st ++ new.
Proof.
  revert st. induction numbered as [|[n line] numbered IH]; intros st.
  { exists [], []. simpl. by rewrite app_nil_r. }
  cbn [foldl fmap list_fmap snd].
  destruct (IH (parse_line page_num st (n, line)))
    as (accepted & new & Hsub & Hall & Htr).
  destruct (parse_line_step page_num st n line) as [Hsame|(t & Ht & Hadd)].
  - exists accepted, new. split; [by apply sublist_cons|].
    split; [done|]. by rewrite Htr, Hsame.
  - exists (line :: accepted), (t :: new). split; [by apply sublist_skip|].
    split; [by constructor|]. by rewrite Htr, Hadd, <- app_assoc.
Qed.

Lemma enumerate_snd {A} (start : nat) (l : list A) : (enumerate start l).*2 = l.
Proof.
  revert start. induction l as [|x l IH]; intros start; simpl; [done|].
  by rewrite IH.
Qed.

Lemma parse_pages_order (numbered : list (nat * option string))
    (st : parser_state) :
  ∃ accepted new,
    accepted `sublist_of` doc_lines numbered.*2
    ∧ Forall2 emitted_from accepted new
    ∧ transactions (foldl parse_page st numbered) = transactions st ++ new.
Proof.
  revert st. induction numbered as [|[n page] numbered IH]; intros st.
  { exists [], []. simpl. by rewrite app_nil_r. }
  cbn [foldl fmap list_fmap snd].
  change (doc_lines (page :: numbered.*2))
    with (page_lines page ++ doc_lines numbered.*2).
  destruct (IH (parse_page st (n, page))) as (acc2 & new2 & Hsub2 & Hall2 & Htr2).
  assert (Hpage : ∃ acc1 new1,
    acc1 `sublist_of` page_lines page
    ∧ Forall2 emitted_from acc1 new1
    ∧ transactions (parse_page st (n, page)) = transactions st ++ new1).
  { unfold parse_page, page_lines. destruct page as [text|].
    - destruct (is_empty text).
      + exists [], []. by rewrite app_nil_r.
      + destruct (parse_lines_order n (enumerate 1 (split_on "010" text)) st)
          as (acc1 & new1 & Hsub1 & Hall1 & Htr1).
        rewrite enumerate_snd in Hsub1. by exists acc1, new1.
    - exists [], []. by rewrite app_nil_r. }
  destruct Hpage as (acc1 & new1 & Hsub1 & Hall1 & Htr1).
  exists (acc1 ++ acc2), (new1 ++ new2). split; [by apply sublist_app|].
  split; [by apply Forall2_app|].
  by rewrite Htr2, Htr1, <- app_assoc.
Qed.

Lemma validate_loop_order (l : list Transaction) (st st' : validator_state) :
  validate_loop st l = Ok st' →
  ∃ kept new,
    kept `sublist_of` l
    ∧ Forall2 kept_from kept new
    ∧ validated_transactions st' = validated_transactions st ++ new.
Proof.
  revert st. induction l as [|t l IH]; intros st; simpl.
  { intros [= <-]. exists [], []. by rewrite app_nil_r. }
  destruct (validate_one (validator_prev st) t) as [[[t' cur]|]|e] eqn:Hv.
  - intros (kept & new & Hsub & Hall & Hval)%IH. simpl in Hval.
    exists (t :: kept), (t' :: new). split; [by apply sublist_skip|].
    split.
    + constructor; [|done]. by exists (validator_prev st), cur.
    + by rewrite Hval, <- app_assoc.
  - intros (kept & new & Hsub & Hall & Hval)%IH.
    exists kept, new. split; [by apply sublist_cons|]. done.
  - destruct (handled e); [|done].
    intros (kept & new & Hsub & Hall & Hval)%IH.
    exists kept, new. split; [by apply sublist_cons|]. done.
Qed.

End RunFacts.

(** ** Claims about whole runs *)

Section RunClaims.

(** C5.  Every record the parser emits has at most one of Debit and
    Credit non-empty; the validator keeps that invariant, so every record
    of its output has it too.  Both may be empty. *)
Theorem at_most_one_of_debit_credit :
  (∀ pages, Forall at_most_one (transactions (parse_pages pages)))
  ∧ (∀ l out,
       Forall at_most_one l → validate_transactions l = Ok out →
       Forall at_most_one out)
  ∧ (∀ pages parsed out,
       parse_pdf pages = Ok parsed → validate_transactions parsed = Ok out →
       Forall at_most_one parsed ∧ Forall at_most_one out).
Proof.
  assert (Hparse : ∀ pages, Forall at_most_one (transactions (parse_pages pages))).
  { apply parse_pages_invariant; [constructor|].
    intros l prev line t cur Hl Hp. apply Forall_app. split; [done|].
    apply Forall_singleton. by eapply process_line_at_most_one. }
  assert (Hvalidate : ∀ l out,
    Forall at_most_one l → validate_transactions l = Ok out →
    Forall at_most_one out).
  { intros l out Hl. unfold validate_transactions.
    destruct (validate_loop validator_init l) as [st|] eqn:Hrun; [|done].
    simpl. intros [= <-].
    by apply (validate_loop_at_most_one l validator_init). }
  split; [done|]. split; [done|].
  intros pages parsed out Hp Hv.
  assert (Hparsed : Forall at_most_one parsed).
  { unfold parse_pdf in Hp. destruct pages; [done|]. by injection Hp as <-. }
  eauto.
Qed.

Lemma at_most_one_of_debit_credit_witness :
  Forall at_most_one
    [mk_transaction "01.02.24" "GROCERY STORE" "" "" "1000.00";
     mk_transaction "02.02.24" "SALARY" "" "" "1200.00";
     mk_transaction "03.02.24" "RENT" "800.00" "" "400.00"]
  ∧ Forall at_most_one
      [mk_transaction "01.02.24" "GROCERY STORE" "" "" "1000.00";
       mk_transaction "02.02.24" "SALARY" "" "200.00" "1200.00";
       mk_transaction "03.02.24" "RENT" "800.00" "" "400.00"].
Proof.
  apply (proj2 (proj2 at_most_one_of_debit_credit)
           [Some "01.02.24 GROCERY STORE 45.00 1,000.00";
            Some "02.02.24 SALARY 1200.00"; None;
            Some "03.02.24 RENT 800.00 400.00"]).
  - vm_compute. exact eq_refl.
  - vm_compute. exact eq_refl.
Defined.

(** C7.  Both stages keep the order: the records of the parser come, one
    per line and in the same order, from a subsequence of the lines of
    the document (pages in order, lines of a page in order), and the
    records of the validator come, one per record and in the same order,
    from a subsequence of its input. *)
Theorem order_preserved :
  (∀ pages, ∃ accepted,
     accepted `sublist_of` doc_lines pages
     ∧ Forall2 emitted_from accepted (transactions (parse_pages pages)))
  ∧ (∀ l out,
       validate_transactions l = Ok out →
       ∃ kept, kept `sublist_of` l ∧ Forall2 kept_from kept out).
Proof.
  split.
  - intros pages. unfold parse_pages.
    destruct (parse_pages_order (enumerate 1 pages) parser_init)
      as (accepted & new & Hsub & Hall & Htr).
    rewrite enumerate_snd in Hsub. exists accepted. by rewrite Htr.
  - intros l out. unfold validate_transactions.
    destruct (validate_loop validator_init l) as [st|] eqn:Hrun; [|done].
    simpl. intros [= <-].
    apply validate_loop_order in Hrun as (kept & new & Hsub & Hall & Hval).
    exists kept. by rewrite Hval.
Qed.

Lemma order_preserved_witness :
  ∃ kept,
    kept `sublist_of`
      [mk_transaction "01.02.24" "GROCERY STORE" "" "" "1000.00";
       mk_transaction "01.02.24" "" "" "" "1100.00";
       mk_transaction "02.02.24" "SALARY" "" "" "1200.00"]
    ∧ Forall2 kept_from kept
        [mk_transaction "01.02.24" "GROCERY STORE" "" "" "1000.00";
         mk_transaction "02.02.24" "SALARY" "" "200.00" "1200.00"].
Proof.
  apply (proj2 order_preserved).
  vm_compute. exact eq_refl.
Defined.

End RunClaims.

(** ** Ordering comparisons *)

Section OrderingFacts.

Lemma gt_true_iff (a b : Decimal) :
  gt a b = Ok true ↔ is_nan a = false ∧ is_nan b = false ∧ cmp a b = Gt.
Proof.
  unfold gt. destruct (is_nan a), (is_nan b); simpl;
    try (split; [done|by intros (? & ? & ?)]).
  destruct (cmp a b); split; try done; by intros (_ & _ & ?).
Qed.

(** [a > b] is false exactly when neither is a NaN and [a] is equal to or
    lower than [b]. *)
Lemma gt_false_iff (a b : Decimal) :
  gt a b = Ok false
  ↔ is_nan a = false ∧ is_nan b = false ∧ (cmp a b = Eq ∨ cmp a b = Lt).
Proof.
  unfold gt. destruct (is_nan a), (is_nan b); simpl;
    try (split; [done|by intros (? & ? & ?)]).
  destruct (cmp a b); split; try done; auto; by intros (_ & _ & [?|?]).
Qed.

(** An ordering comparison raises exactly when one side is a NaN. *)
Lemma gt_raises_iff (a b : Decimal) (e : exn) :
  gt a b = Raise e ↔ e = InvalidOperation ∧ is_nan a || is_nan b = true.
Proof.
  unfold gt. destruct (is_nan a || is_nan b); split.
  - by intros [= <-].
  - by intros [-> _].
  - done.
  - by intros [_ ?].
Qed.

End OrderingFacts.

(** ** The scenarios of the specification, evaluated *)

Section Scenarios.

(** Scenario A: a known previous balance of 1045.00. *)
Example scenario_A :
  process_line (Some (DFinite false 104500 (-2)))
    "01.02.24 GROCERY STORE 45.00 1,000.00"
  = Ok (Some (mk_transaction "01.02.24" "GROCERY STORE" "45.00" "" "1000.00",
              DFinite false 100000 (-2))).
Proof. vm_compute. exact eq_refl. Qed.

(** Scenarios B and C: the first record has no previous balance, the
    second has no amount; the validator derives the Credit of the second. *)
Example scenario_B_C :
  parse_pdf [Some "01.02.24 GROCERY STORE 45.00 1,000.00";
             Some "02.02.24 SALARY 1200.00"]
  = Ok [mk_transaction "01.02.24" "GROCERY STORE" "" "" "1000.00";
        mk_transaction "02.02.24" "SALARY" "" "" "1200.00"]
  ∧ validate_transactions
      [mk_transaction "01.02.24" "GROCERY STORE" "" "" "1000.00";
       mk_transaction "02.02.24" "SALARY" "" "" "1200.00"]
    = Ok [mk_transaction "01.02.24" "GROCERY STORE" "" "" "1000.00";
          mk_transaction "02.02.24" "SALARY" "" "200.00" "1200.00"].
Proof. split; vm_compute; exact eq_refl. Qed.

(** Scenario D: too few tokens, or a first token of the wrong shape. *)
Example scenario_D :
  extract_transaction_data "01.02.24 1000.00" = None
  ∧ extract_transaction_data "2024.01.01 GROCERY STORE 45.00 1000.00" = None.
Proof. split; vm_compute; exact eq_refl. Qed.

(** Scenario E: a Description that is empty after trimming. *)
Example scenario_E :
  validate_transactions [mk_transaction "01.02.24" "  " "" "" "1000.00"] = Ok [].
Proof. vm_compute. exact eq_refl. Qed.

(** A token with two dots is not numeric, and the scan goes on to the
    next candidate. *)
Example malformed_token_skipped :
  is_numeric "12.34.56" = false
  ∧ extract_transaction_data "01.02.24 SHOP 7 12.34.56 100.00"
    = Some {| date := "01.02.24"; description := "SHOP";
              amount := Some "7"; balance := "100.00" |}.
Proof. split; vm_compute; exact eq_refl. Qed.

(** [str(Decimal(s))] on some strings. *)
Example decimal_strings :
  map (λ s, str <$> parse s)
    ["1000.00"; "1E5"; "+.5"; "1."; "-0"; "nan"; "-sNaN012"; "inf";
     "1_000"; "0.0000001"; "05.0"; "1,000"; "."; "12.34.56"]
  = [Some "1000.00"; Some "1E+5"; Some "0.5"; Some "1"; Some "-0";
     Some "NaN"; Some "-sNaN12"; Some "Infinity"; Some "1000";
     Some "1E-7"; Some "5.0"; None; None; None].
Proof. vm_compute. exact eq_refl. Qed.

(** [Decimal(s)] is exact: an exponent outside the widest range raises
    InvalidOperation, so such a token is not numeric. *)
Example exact_construction_range :
  map is_numeric ["1e999999999999999999"; "1e1000000000000000000";
                  "10e999999999999999999"; "0e1000000000000000000";
                  "1e-1999999999999999997"; "1e-1999999999999999998"]
  = [true; false; false; false; true; false]
  ∧ of_str "1e1000000000000000000" = Raise InvalidOperation.
Proof. split; vm_compute; exact eq_refl. Qed.

(** Subtraction rounds to the 28 significant digits of the context. *)
Example subtraction_rounds :
  (d ← sub (DFinite false 1 0) (DFinite false 3 (-30)); Ok (str d))
  = Ok "1.000000000000000000000000000".
Proof. vm_compute. exact eq_refl. Qed.

(** An overflow of the subtraction is not among the exceptions the
    validator handles: it leaves the function. *)
Example validator_overflow_escapes :
  validate_transactions
    [mk_transaction "01.02.24" "A" "" "" "9E999999";
     mk_transaction "02.02.24" "B" "" "" "-9E999999"]
  = Raise Overflow.
Proof. vm_compute. exact eq_refl. Qed.

End Scenarios.

(** * Further properties of the code *)

(** ** More on strings *)

Section MoreStringFacts.

Lemma remove_char_absent (c : ascii) (s : string) :
  has_char c s = false → remove_char c s = s.
Proof.
  induction s as [|a s IH]; [done|]. simpl.
  intros [Ha Hs]%orb_false_iff. rewrite Ha. by rewrite IH.
Qed.

Lemma has_char_remove_char (c : ascii) (s : string) :
  has_char c (remove_char c s) = false.
Proof.
  induction s as [|a s IH]; [done|]. simpl.
  destruct (Ascii.eqb a c) eqn:Ha; [done|]. simpl. by rewrite Ha.
Qed.

Lemma has_char_remove_other (c d : ascii) (s : string) :
  has_char c s = false → has_char c (remove_char d s) = false.
Proof.
  induction s as [|a s IH]; [done|]. simpl.
  intros [Ha Hs]%orb_false_iff.
  destruct (Ascii.eqb a d); simpl; rewrite ?Ha; auto.
Qed.

Lemma has_char_lstrip (c : ascii) (s : string) :
  has_char c s = false → has_char c (lstrip s) = false.
Proof.
  induction s as [|a s IH]; [done|]. simpl.
  intros [Ha Hs]%orb_false_iff.
  destruct (is_space a); [auto|]. simpl. by rewrite Ha, Hs.
Qed.

Lemma has_char_rstrip (c : ascii) (s : string) :
  has_char c s = false → has_char c (rstrip s) = false.
Proof.
  induction s as [|a s IH]; [done|]. simpl.
  intros [Ha Hs]%orb_false_iff.
  destruct (is_space a && is_empty (rstrip s)); [done|]. simpl.
  by rewrite Ha, IH.
Qed.

Lemma has_char_strip (c : ascii) (s : string) :
  has_char c s = false → has_char c (strip s) = false.
Proof. intros H. by apply has_char_lstrip, has_char_rstrip. Qed.

Lemma no_space_remove_char (c : ascii) (s : string) :
  no_space s = true → no_space (remove_char c s) = true.
Proof.
  induction s as [|a s IH]; [done|]. simpl.
  intros [Ha Hs]%andb_true_iff.
  destruct (Ascii.eqb a c); simpl; rewrite ?Ha; auto.
Qed.

End MoreStringFacts.
Section NormalisedStrings.

(** What [clean_amount] returns holds no comma and no apostrophe. *)
Lemma clean_amount_no_separator (value : string) :
  has_char "," (clean_amount value) = false
  ∧ has_char "'" (clean_amount value) = false.
Proof.
  unfold clean_amount. split; apply has_char_strip.
  - apply has_char_remove_char.
  - apply has_char_remove_other, has_char_remove_char.
Qed.

Lemma clean_amount_trimmed (value : string) :
  strip (clean_amount value) = clean_amount value.
Proof. unfold clean_amount. apply strip_idemp. Qed.

(** A trimmed string without separators is its own normal form. *)
Lemma clean_amount_fixed (value : string) :
  has_char "," value = false → has_char "'" value = false →
  strip value = value → clean_amount value = value.
Proof.
  intros Hc Ha Hs. unfold clean_amount.
  by rewrite (remove_char_absent "'" _ Ha), (remove_char_absent "," _ Hc).
Qed.

(** Whether a string is numeric depends on its normal form only. *)
Lemma is_numeric_of_clean (a b : string) :
  clean_amount a = clean_amount b → is_numeric a = is_numeric b.
Proof.
  intros H. unfold is_numeric. by rewrite <- !clean_amount_cleaned, H.
Qed.

(** X1.  Normalising is idempotent, and a string is numeric exactly when
    its normal form is: the stored balance and amount strings are
    themselves accepted by [is_numeric]. *)
Theorem clean_amount_idempotent (value : string) :
  clean_amount (clean_amount value) = clean_amount value
  ∧ is_numeric (clean_amount value) = is_numeric value.
Proof.
  destruct (clean_amount_no_separator value) as [Hc Ha].
  assert (Hidem : clean_amount (clean_amount value) = clean_amount value).
  { apply clean_amount_fixed; [done|done|apply clean_amount_trimmed]. }
  split; [done|]. by apply is_numeric_of_clean.
Qed.

End NormalisedStrings.

(** ** A date is never numeric *)

Section DateNotNumeric.

Lemma digit_cases (c : ascii) :
  is_digit c = true →
  c ∈ ["0"; "1"; "2"; "3"; "4"; "5"; "6"; "7"; "8"; "9"]%char.
Proof.
  destruct c as [[] [] [] [] [] [] [] []]; simpl; intros H; try discriminate H;
    set_solver.
Qed.

Lemma digit_not_space (c : ascii) : is_digit c = true → is_space c = false.
Proof.
  intros H%digit_cases. repeat (apply elem_of_cons in H as [->|H]; [done|]).
  by apply not_elem_of_nil in H.
Qed.

Lemma digit_eqb (c x : ascii) :
  is_digit c = true → is_digit x = false → Ascii.eqb c x = false.
Proof.
  intros Hc Hx. destruct (Ascii.eqb c x) eqn:He; [|done].
  apply Ascii.eqb_eq in He as ->. congruence.
Qed.

Lemma remove_char_digit (x c : ascii) (r : string) :
  is_digit c = true → is_digit x = false →
  remove_char x (String c r) = String c (remove_char x r).
Proof. intros Hc Hx. simpl. by rewrite digit_eqb. Qed.

Lemma span_digits_digit (c : ascii) (r : string) :
  is_digit c = true →
  span_digits (String c r) = (String c (span_digits r).1, (span_digits r).2).
Proof. intros Hc. simpl. rewrite Hc. by destruct (span_digits r). Qed.

Lemma span_digits_other (c : ascii) (r : string) :
  is_digit c = false → span_digits (String c r) = ("", String c r).
Proof. intros Hc. simpl. by rewrite Hc. Qed.

(** A string that starts with a digit is read as a number. *)
Lemma parse_digit_first (c : ascii) (r : string) :
  is_digit c = true →
  strip (String c r) = String c r →
  remove_char "_" (String c r) = String c r →
  parse (String c r) = parse_number false (String c r).
Proof.
  intros Hc Hs Hu. unfold parse. rewrite Hs, Hu.
  apply digit_cases in Hc.
  repeat (apply elem_of_cons in Hc as [->|Hc]; [done|]).
  by apply not_elem_of_nil in Hc.
Qed.

(** Two digits, a dot, two digits, a dot: not the start of a number. *)
Lemma parse_number_two_dots (d1 d2 d3 d4 : ascii) (r : string) :
  is_digit d1 = true → is_digit d2 = true →
  is_digit d3 = true → is_digit d4 = true →
  parse_number false
    (String d1 (String d2 (String "." (String d3 (String d4 (String "." r))))))
  = None.
Proof.
  intros H1 H2 H3 H4. unfold parse_number.
  rewrite (span_digits_digit d1), (span_digits_digit d2) by done.
  rewrite (span_digits_other ".") by done. cbn [fst snd].
  rewrite (span_digits_digit d3), (span_digits_digit d4) by done.
  rewrite (span_digits_other ".") by done. cbn [fst snd]. done.
Qed.

Lemma rstrip_newline (b : string) :
  no_space b = true → rstrip (b +:+ String "010" "") = b.
Proof.
  induction b as [|a b IH]; [done|]. simpl.
  intros [Ha Hb]%andb_true_iff. rewrite (IH Hb).
  apply negb_true_iff in Ha. by rewrite Ha.
Qed.

Lemma remove_char_app (x : ascii) (s t : string) :
  remove_char x (s +:+ t) = remove_char x s +:+ remove_char x t.
Proof.
  induction s as [|a s IH]; [done|]. simpl.
  destruct (Ascii.eqb a x); by rewrite IH.
Qed.

(** A newline at the end does not change whether a text is numeric. *)
Lemma is_numeric_newline (b : string) :
  no_space b = true → is_numeric (b +:+ String "010" "") = is_numeric b.
Proof.
  intros Hb. unfold is_numeric. rewrite !remove_char_app.
  change (remove_char "'" (remove_char "," (String "010" "")))
    with (String "010" "").
  assert (Hstrip : ∀ y, no_space y = true →
            strip (y +:+ String "010" "") = strip y).
  { intros y Hy. unfold strip. by rewrite rstrip_newline, rstrip_no_space. }
  by rewrite Hstrip by by do 2 apply no_space_remove_char.
Qed.

Lemma remove_char_keep (x c : ascii) (r : string) :
  Ascii.eqb c x = false → remove_char x (String c r) = String c (remove_char x r).
Proof. intros H. simpl. by rewrite H. Qed.

Lemma date_body_remove (x d1 d2 d3 d4 d5 d6 : ascii) :
  is_digit d1 = true → is_digit d2 = true → is_digit d3 = true →
  is_digit d4 = true → is_digit d5 = true → is_digit d6 = true →
  is_digit x = false → Ascii.eqb "." x = false →
  ∀ rest,
    remove_char x
      (String d1 (String d2 (String "." (String d3 (String d4 (String "."
         (String d5 (String d6 rest))))))))
    = String d1 (String d2 (String "." (String d3 (String d4 (String "."
         (String d5 (String d6 (remove_char x rest)))))))).
Proof.
  intros H1 H2 H3 H4 H5 H6 Hx Hdot rest.
  repeat (rewrite remove_char_keep by first [by apply digit_eqb | done]).
  done.
Qed.

(** A text of the date pattern holds no whitespace and is not numeric. *)
Lemma date_pattern_facts (t : string) :
  date_pattern t = true → no_space t = true ∧ is_numeric t = false.
Proof.
  unfold date_pattern.
  destruct t as [|d1 [|d2 [|p1 [|d3 [|d4 [|p2 [|d5 [|d6 rest]]]]]]]];
    try done.
  rewrite !andb_true_iff.
  intros [[[[[[[[H1 H2] Hp1] H3] H4] Hp2] H5] H6] Hrest].
  apply Ascii.eqb_eq in Hp1 as ->. apply Ascii.eqb_eq in Hp2 as ->.
  apply is_empty_true in Hrest as ->.
  set (body := String d1 (String d2 (String "." (String d3 (String d4
                 (String "." (String d5 (String d6 "")))))))).
  assert (Hns : no_space body = true).
  { unfold body. simpl. by rewrite !digit_not_space. }
  split; [done|].
  assert (Hclean : ∀ x, is_digit x = false → Ascii.eqb "." x = false →
            remove_char x body = body).
  { intros x Hx Hdot. unfold body. by rewrite date_body_remove. }
  unfold is_numeric.
  rewrite (Hclean ","%char), (Hclean "'"%char), (strip_no_space body Hns) by done.
  unfold of_str. unfold body at 2.
  rewrite parse_digit_first;
    [|done|by apply strip_no_space|by apply Hclean].
  by rewrite parse_number_two_dots.
Qed.

(** What [is_date] accepts: a text of the date pattern, or one followed
    by a single newline. *)
Lemma is_date_cases (text : string) :
  is_date text = true →
  ∃ body, date_pattern body = true
          ∧ (text = body ∨ text = body +:+ String "010" "").
Proof.
  unfold is_date.
  destruct text as [|d1 [|d2 [|p1 [|d3 [|d4 [|p2 [|d5 [|d6 rest]]]]]]]];
    try done.
  intros [Hpat Hrest]%andb_true_iff.
  exists (String d1 (String d2 (String p1 (String d3 (String d4
            (String p2 (String d5 (String d6 "")))))))).
  split; [by rewrite <- Hpat; simpl; rewrite andb_true_r|].
  destruct rest as [|c [|c' r]]; simpl in Hrest; try done; [by left|].
  apply Ascii.eqb_eq in Hrest as ->. by right.
Qed.

(** X2.  A text that [is_date] accepts is never numeric, so the date
    token is never taken for the balance or the amount. *)
Theorem date_is_not_numeric (text : string) :
  is_date text = true → is_numeric text = false.
Proof.
  intros (body & Hpat & Hcases)%is_date_cases.
  destruct (date_pattern_facts body Hpat) as [Hns Hnum].
  destruct Hcases as [-> | ->]; [done|].
  by rewrite is_numeric_newline.
Qed.

Lemma date_is_not_numeric_witness : is_numeric "01.02.24" = false.
Proof. apply date_is_not_numeric. vm_compute. exact eq_refl. Defined.

End DateNotNumeric.

(** ** The shape of an accepted line *)

Section AcceptedLineShape.

Lemma rstrip_app_fixed (a b : string) :
  b ≠ "" → rstrip b = b → rstrip (a +:+ b) = a +:+ b.
Proof.
  intros Hne Hb. induction a as [|c a IH]; [done|].
  change (String c a +:+ b) with (String c (a +:+ b)).
  cbn [rstrip]. rewrite IH.
  destruct (a +:+ b) eqn:E.
  - destruct a; [done|discriminate E].
  - simpl. by rewrite andb_false_r.
Qed.

Lemma join_nonempty (sep : string) (x : string) (l : list string) :
  x ≠ "" → join sep (x :: l) ≠ "".
Proof.
  intros Hx. destruct l; simpl; [done|]. by apply app_nonempty_l.
Qed.

Lemma join_cons (sep x y : string) (l : list string) :
  join sep (x :: y :: l) = x +:+ sep +:+ join sep (y :: l).
Proof. done. Qed.

(** Joining parts of a split line by single spaces gives a string that
    trimming leaves as it is. *)
Lemma strip_join (l : list string) :
  Forall (λ t, no_space t = true ∧ t ≠ "") l →
  strip (join " " l) = join " " l.
Proof.
  intros Hl.
  assert (Hr : rstrip (join " " l) = join " " l).
  { induction Hl as [|x l [Hx Hne] Hl IH]; [done|].
    destruct l as [|y l]; [by apply rstrip_no_space|].
    rewrite join_cons. inversion Hl as [|? ? [_ Hy] _]; subst.
    apply rstrip_app_fixed; [by apply app_nonempty_l|].
    apply rstrip_app_fixed; [by apply join_nonempty|done]. }
  unfold strip. rewrite Hr.
  destruct Hl as [|x l [Hx Hne] Hl]; [done|].
  assert (Hhead : ∃ c r, join " " (x :: l) = String c r ∧ is_space c = false).
  { destruct x as [|c x]; [done|]. simpl in Hx.
    apply andb_true_iff in Hx as [Hc%negb_true_iff _].
    destruct l; simpl; eauto. }
  destruct Hhead as (c & r & -> & Hc). simpl. by rewrite Hc.
Qed.

Lemma slice_from_1 {A} (l : list A) (j : nat) :
  (1 ≤ j ≤ length l)%nat →
  slice l 1 (Z.of_nat j) = take (j - 1) (drop 1 l).
Proof.
  intros Hj. unfold slice, slice_bound.
  replace (Z.to_nat (Z.min (Z.of_nat (length l)) (Z.max 0 (if 1 <? 0 then 1 + Z.of_nat (length l) else 1))))
    with 1%nat by (simpl; lia).
  replace (Z.to_nat (Z.min (Z.of_nat (length l))
             (Z.max 0 (if Z.of_nat j <? 0 then Z.of_nat j + Z.of_nat (length l)
                       else Z.of_nat j))))
    with j; [done|].
  destruct (Z.of_nat j <? 0) eqn:E; lia.
Qed.

(** The amount is the numeric part nearest to the start index of the
    backward scan. *)
Lemma find_amount_nearest (parts : list string) (n : nat) :
  ∀ a k, find_amount parts n = (Some a, k) →
    ∀ i t, (Z.to_nat k < i ≤ n)%nat → parts !! i = Some t →
           is_numeric t = false.
Proof.
  induction n as [|n IH]; intros a k; simpl; [done|].
  destruct (parts !! S n) as [part|] eqn:Hn.
  - destruct (is_numeric part) eqn:Hp.
    + intros [= <- <-] i t Hi. rewrite Nat2Z.id in Hi. lia.
    + intros Hf i t Hi Ht. destruct (decide (i = S n)) as [->|Hne].
      * congruence.
      * apply (IH a k Hf i); [lia|done].
  - intros Hf i t Hi Ht. destruct (decide (i = S n)) as [->|Hne].
    + congruence.
    + apply (IH a k Hf i); [lia|done].
Qed.

(** X3.  On an accepted line the balance is the rightmost numeric token
    and stands after the date; the amount, when there is one, is the
    numeric token nearest to the left of the balance, after the date; and
    the description is the tokens between the date and the amount (the
    balance when there is no amount) joined by single spaces.  Tokens
    between the amount and the balance, and after the balance, go into
    no field. *)
Theorem accepted_line_shape (line : string) (pf : ParsedFields) :
  extract_transaction_data line = Some pf →
  date pf = split line !!! 0%nat
  ∧ date_pattern (date pf) = true
  ∧ ∃ b bt,
      (1 ≤ b < length (split line))%nat
      ∧ split line !! b = Some bt
      ∧ is_numeric bt = true
      ∧ balance pf = clean_amount bt
      ∧ (∀ i t, (b < i)%nat → split line !! i = Some t → is_numeric t = false)
      ∧ match amount pf with
        | Some a =>
            ∃ k kt,
              (1 ≤ k < b)%nat
              ∧ split line !! k = Some kt
              ∧ is_numeric kt = true
              ∧ a = clean_amount kt
              ∧ (∀ i t, (k < i < b)%nat → split line !! i = Some t →
                        is_numeric t = false)
              ∧ description pf = join " " (take (k - 1) (drop 1 (split line)))
        | None =>
            (∀ i t, (1 ≤ i < b)%nat → split line !! i = Some t →
                    is_numeric t = false)
            ∧ description pf = join " " (take (b - 1) (drop 1 (split line)))
        end.
Proof.
  intros He. pose proof (extract_Some_inv line pf He) as Hinv.
  cbv zeta in Hinv.
  destruct Hinv as (Hlen & Hdate & Hd & l1 & part & l2 & Hparts & Hpart & Hl2
                    & Hbal & Hrest).
  pose proof (split_parts line) as Htok.
  split; [done|]. split.
  { rewrite Hd, <- head_date_pattern; [done|lia]. }
  assert (Hb : (1 ≤ length l1)%nat).
  { destruct l1 as [|x l1]; [|simpl; lia]. exfalso.
    rewrite head_date_pattern in Hdate by lia.
    rewrite Hparts in Hdate. simpl in Hdate.
    apply date_pattern_facts in Hdate as [_ Hdate]. congruence. }
  assert (Hlookup : split line !! length l1 = Some part).
  { rewrite Hparts. by apply list_lookup_middle. }
  assert (Hlt : (length l1 < length (split line))%nat).
  { by eapply lookup_lt_Some. }
  exists (length l1), part.
  split; [lia|]. split; [done|]. split; [done|]. split; [done|]. split.
  { intros i t Hi Ht. rewrite Hparts in Ht.
    rewrite lookup_app_r in Ht by lia.
    destruct (i - length l1)%nat as [|j] eqn:Hj; [lia|]. simpl in Ht.
    rewrite Forall_forall in Hl2. apply Hl2.
    by eapply list_elem_of_lookup_2. }
  assert (Htrim : ∀ j, strip (join " " (take j (drop 1 (split line))))
                       = join " " (take j (drop 1 (split line)))).
  { intros j. apply strip_join. by apply Forall_take, Forall_drop. }
  pose proof (find_amount_spec (split line)
                (Z.to_nat (Z.of_nat (length l1) - 1))) as Hspec.
  pose proof (find_amount_nearest (split line)
                (Z.to_nat (Z.of_nat (length l1) - 1))) as Hnear.
  destruct (find_amount _ _) as [[a|] k] eqn:Hfa.
  - destruct Hrest as [-> Hdesc].
    destruct Hspec as (kt & Hkt & Hnum & -> & Hk).
    exists (Z.to_nat k), kt.
    split; [lia|]. split; [done|]. split; [done|]. split; [done|]. split.
    { intros i t Hi. apply (Hnear _ _ eq_refl). lia. }
    assert (Hpos : (0 <? k) = true) by (apply Z.ltb_lt; lia).
    rewrite Hpos in Hdesc. rewrite Hdesc.
    replace k with (Z.of_nat (Z.to_nat k)) at 1 by lia.
    rewrite slice_from_1 by lia. apply Htrim.
  - destruct Hrest as [-> Hdesc]. destruct Hspec as [-> Hnone].
    split.
    { intros i t Hi. apply Hnone. lia. }
    simpl in Hdesc. rewrite Hdesc, slice_from_1 by lia. apply Htrim.
Qed.

Lemma accepted_line_shape_witness :
  ∃ b bt,
    split "01.02.24 ORDER 123 45.00 CHF 1,000.00 CR" !! b = Some bt
    ∧ is_numeric bt = true.
Proof.
  destruct (accepted_line_shape
              "01.02.24 ORDER 123 45.00 CHF 1,000.00 CR"
              {| date := "01.02.24"; description := "ORDER 123";
                 amount := Some "45.00"; balance := "1000.00" |})
    as (_ & _ & b & bt & _ & Hb & Hn & _).
  - vm_compute. exact eq_refl.
  - by exists b, bt.
Defined.

End AcceptedLineShape.

(** ** The parser as one fold over the lines of the document *)

Section ParserFold.

Lemma run_lines_app (acc : list Transaction) (prev : option Decimal)
    (l1 l2 : list string) :
  run_lines acc prev (l1 ++ l2)
  = run_lines (run_lines acc prev l1).1 (run_lines acc prev l1).2 l2.
Proof.
  revert acc prev. induction l1 as [|line l1 IH]; intros acc prev; simpl;
    [done|].
  destruct (process_line prev line) as [[[t cur]|]|e]; apply IH.
Qed.

Lemma parse_line_run (page_num : nat) (st : parser_state) (n : nat)
    (line : string) :
  (transactions (parse_line page_num st (n, line)),
   prev_balance (parse_line page_num st (n, line)))
  = run_lines (transactions st) (prev_balance st) [line].
Proof.
  unfold parse_line. simpl.
  by destruct (process_line (prev_balance st) line) as [[[t cur]|]|e].
Qed.

Lemma parse_lines_run (page_num : nat) (numbered : list (nat * string))
    (st : parser_state) :
  (transactions (foldl (parse_line page_num) st numbered),
   prev_balance (foldl (parse_line page_num) st numbered))
  = run_lines (transactions st) (prev_balance st) numbered.*2.
Proof.
  revert st. induction numbered as [|[n line] numbered IH]; intros st;
    [done|].
  cbn [foldl fmap list_fmap snd]. rewrite IH.
  change (line :: numbered.*2) with ([line] ++ numbered.*2).
  rewrite run_lines_app, <- (parse_line_run page_num st n line). done.
Qed.

Lemma parse_page_run (st : parser_state) (n : nat) (page : option string) :
  (transactions (parse_page st (n, page)), prev_balance (parse_page st (n, page)))
  = run_lines (transactions st) (prev_balance st) (page_lines page).
Proof.
  unfold parse_page, page_lines. destruct page as [text|]; [|done].
  destruct (is_empty text); [done|].
  by rewrite parse_lines_run, enumerate_snd.
Qed.

Lemma parse_pages_run_from (numbered : list (nat * option string))
    (st : parser_state) :
  (transactions (foldl parse_page st numbered),
   prev_balance (foldl parse_page st numbered))
  = run_lines (transactions st) (prev_balance st) (doc_lines numbered.*2).
Proof.
  revert st. induction numbered as [|[n page] numbered IH]; intros st;
    [done|].
  cbn [foldl fmap list_fmap snd]. rewrite IH.
  change (doc_lines (page :: numbered.*2))
    with (page_lines page ++ doc_lines numbered.*2).
  by rewrite run_lines_app, <- (parse_page_run st n page).
Qed.

(** The parser is one fold over the lines of the document. *)
Lemma parse_pages_run (pages : list (option string)) :
  (transactions (parse_pages pages), prev_balance (parse_pages pages))
  = run_lines [] None (doc_lines pages).
Proof.
  unfold parse_pages. rewrite parse_pages_run_from. simpl.
  by rewrite enumerate_snd.
Qed.

(** X4.  How the lines are spread over pages does not matter: two
    documents that both have pages, or both have none, and have the
    same lines in the same order give the same result of [parse_pdf]
    and end with the same previous balance (the previous balance is
    never reset between pages). *)
Theorem pagination_irrelevant (pages pages' : list (option string)) :
  (pages = [] ↔ pages' = []) →
  doc_lines pages = doc_lines pages' →
  parse_pdf pages = parse_pdf pages'
  ∧ prev_balance (parse_pages pages) = prev_balance (parse_pages pages').
Proof.
  intros Hempty Hlines.
  pose proof (parse_pages_run pages) as H1.
  pose proof (parse_pages_run pages') as H2.
  rewrite Hlines, <- H2 in H1. injection H1 as Htr Hprev.
  split; [|done]. unfold parse_pdf.
  destruct pages as [|page pages], pages' as [|page' pages'].
  - done.
  - by destruct Hempty as [Hempty _]; discriminate (Hempty eq_refl).
  - by destruct Hempty as [_ Hempty]; discriminate (Hempty eq_refl).
  - by rewrite Htr.
Qed.

Lemma pagination_irrelevant_witness :
  parse_pdf [Some "01.02.24 GROCERY STORE 45.00 1,000.00"; None;
             Some "02.02.24 SALARY 1200.00"]
  = parse_pdf [Some ("01.02.24 GROCERY STORE 45.00 1,000.00"
                     +:+ String "010" "02.02.24 SALARY 1200.00")]
  ∧ prev_balance
      (parse_pages [Some "01.02.24 GROCERY STORE 45.00 1,000.00"; None;
                    Some "02.02.24 SALARY 1200.00"])
    = prev_balance
        (parse_pages [Some ("01.02.24 GROCERY STORE 45.00 1,000.00"
                            +:+ String "010" "02.02.24 SALARY 1200.00")]).
Proof.
  apply pagination_irrelevant.
  - split; discriminate.
  - vm_compute. exact eq_refl.
Defined.

End ParserFold.

(** ** Invariants of the parser's state *)

Section ParserState.

(** An invariant of the records and the previous balance that every
    emitted record maintains holds after any sequence of lines. *)
Lemma run_lines_invariant (Inv : list Transaction → option Decimal → Prop) :
  (∀ acc prev line t cur,
     Inv acc prev → process_line prev line = Ok (Some (t, cur)) →
     Inv (acc ++ [t]) (Some cur)) →
  ∀ lines acc prev,
    Inv acc prev →
    Inv (run_lines acc prev lines).1 (run_lines acc prev lines).2.
Proof.
  intros Hstep lines. induction lines as [|line lines IH]; intros acc prev Hinv;
    simpl; [done|].
  destruct (process_line prev line) as [[[t cur]|]|e] eqn:Hp; eauto.
Qed.

Lemma parse_pages_state_invariant
    (Inv : list Transaction → option Decimal → Prop) :
  Inv [] None →
  (∀ acc prev line t cur,
     Inv acc prev → process_line prev line = Ok (Some (t, cur)) →
     Inv (acc ++ [t]) (Some cur)) →
  ∀ pages, Inv (transactions (parse_pages pages)) (prev_balance (parse_pages pages)).
Proof.
  intros Hinit Hstep pages.
  pose proof (run_lines_invariant Inv Hstep (doc_lines pages) [] None Hinit) as H.
  by rewrite <- parse_pages_run in H.
Qed.

(** X5.  After any document the parser's previous balance is the
    Decimal of the Balance of the record emitted last, and unknown when
    no record was emitted: it moves with every emitted record and with
    nothing else. *)
Theorem parser_tracks_last_emitted (pages : list (option string)) :
  match last (transactions (parse_pages pages)) with
  | None => prev_balance (parse_pages pages) = None
  | Some t =>
      ∃ b, of_str (get t "Balance") = Ok b
           ∧ prev_balance (parse_pages pages) = Some b
  end.
Proof.
  apply (parse_pages_state_invariant
           (λ acc prev,
              match last acc with
              | None => prev = None
              | Some t => ∃ b, of_str (get t "Balance") = Ok b ∧ prev = Some b
              end)); [done|].
  intros acc prev line t cur _ Hp. rewrite last_snoc.
  apply process_line_emits in Hp as (pf & d & c & _ & Hcur & -> & _).
  exists cur. by rewrite get_Balance.
Qed.

(** X6.  The first record the parser emits has an empty Debit and an
    empty Credit, whatever its line holds: there is no previous balance
    to compare with. *)
Theorem first_record_unclassified (pages : list (option string))
    (t : Transaction) (rest : list Transaction) :
  transactions (parse_pages pages) = t :: rest →
  get t "Debit" = "" ∧ get t "Credit" = "".
Proof.
  pose proof (parse_pages_state_invariant
    (λ acc prev,
       (acc = [] → prev = None)
       ∧ ∀ t rest, acc = t :: rest → get t "Debit" = "" ∧ get t "Credit" = ""))
    as Hinv.
  intros Htr. eapply Hinv; [done| |exact Htr].
  intros acc prev line t' cur [Hnil Hhead] Hp. split.
  { by destruct acc. }
  intros t0 rest0 Hacc. destruct acc as [|a acc].
  - simpl in Hacc. injection Hacc as <- <-.
    rewrite (Hnil eq_refl) in Hp.
    apply process_line_emits in Hp as (pf & d & c & _ & _ & -> & [-> ->]).
    by rewrite get_Debit, get_Credit.
  - simpl in Hacc. injection Hacc as <- <-. by eapply Hhead.
Qed.

Lemma first_record_unclassified_witness :
  get (mk_transaction "01.02.24" "GROCERY STORE" "" "" "1000.00") "Debit" = ""
  ∧ get (mk_transaction "01.02.24" "GROCERY STORE" "" "" "1000.00") "Credit" = "".
Proof.
  apply (first_record_unclassified
           [Some "01.02.24 GROCERY STORE 45.00 1,000.00";
            Some "02.02.24 RENT 800.00 200.00"]
           _ [mk_transaction "02.02.24" "RENT" "800.00" "" "200.00"]).
  vm_compute. exact eq_refl.
Defined.

Lemma no_text_pages_from (pages : list (option string)) (n : nat)
    (st : parser_state) :
  Forall (λ page, page = None ∨ page = Some "") pages →
  foldl parse_page st (enumerate n pages)
  = {| transactions := transactions st;
       prev_balance := prev_balance st;
       parser_log := parser_log st ++ (NoTextOnPage <$> seq n (length pages)) |}.
Proof.
  intros Hall. revert n st.
  induction Hall as [|page pages Hpage Hall IH]; intros n st; simpl.
  { rewrite app_nil_r. by destruct st. }
  rewrite IH. unfold no_text.
  destruct Hpage as [-> | ->]; simpl; by rewrite <- app_assoc.
Qed.

(** X7.  A document whose pages all lack text (the extractor returned
    None or an empty string) is not an error as long as it has a page:
    the parser returns no transactions and logs one warning per page,
    numbered from 1. *)
Theorem pages_without_text (pages : list (option string)) :
  pages ≠ [] →
  Forall (λ page, page = None ∨ page = Some "") pages →
  parse_pdf pages = Ok []
  ∧ parser_log (parse_pages pages) = NoTextOnPage <$> seq 1 (length pages).
Proof.
  intros Hne Hall. unfold parse_pdf, parse_pages.
  rewrite (no_text_pages_from pages 1 parser_init Hall). simpl.
  by destruct pages.
Qed.

Lemma pages_without_text_witness :
  parse_pdf [None; Some ""; None] = Ok []
  ∧ parser_log (parse_pages [None; Some ""; None])
    = NoTextOnPage <$> seq 1 (length [None; Some ""; None : option string]).
Proof.
  apply pages_without_text; [done|].
  repeat (apply Forall_cons; split; [first [by left | by right]|]).
  apply Forall_nil_2.
Defined.

End ParserState.

(** ** The fields of emitted and kept records *)

Section RecordFields.

Lemma dom_mk_transaction (a b c d e : string) :
  dom (mk_transaction a b c d e) = output_keys.
Proof.
  unfold mk_transaction, output_keys. rewrite !dom_insert_L, dom_empty_L.
  set_solver.
Qed.

Lemma get_mk_cases (a b c d e k : string) :
  get (mk_transaction a b c d e) k ∈ [a; b; c; d; e; ""].
Proof.
  unfold get, mk_transaction.
  repeat (rewrite lookup_insert; case_decide; [simpl; set_solver|]).
  rewrite lookup_empty. simpl. set_solver.
Qed.

(** A five-key record is trimmed under every key when its five values
    are. *)
Lemma mk_transaction_trimmed (a b c d e : string) :
  strip a = a → strip b = b → strip c = c → strip d = d → strip e = e →
  ∀ k, strip (get (mk_transaction a b c d e) k) = get (mk_transaction a b c d e) k.
Proof.
  intros Ha Hb Hc Hd He k. pose proof (get_mk_cases a b c d e k) as Hk.
  repeat (apply elem_of_cons in Hk as [-> | Hk]; [done|]).
  by apply not_elem_of_nil in Hk.
Qed.

(** What the parser puts in a record. *)
Lemma emitted_record_fields (line : string) (t : Transaction) :
  emitted_from line t →
  dom t = output_keys
  ∧ date_pattern (get t "Date") = true
  ∧ no_space (get t "Date") = true
  ∧ is_numeric (get t "Balance") = true
  ∧ ∀ k, strip (get t k) = get t k.
Proof.
  intros (prev & cur & Hp).
  apply process_line_emits in Hp as (pf & d & c & He & _ & -> & Hdc).
  rewrite get_Date, get_Balance.
  pose proof (extract_Some_inv line pf He) as Hinv. cbv zeta in Hinv.
  destruct Hinv as (Hlen & Hdate & Hd & l1 & part & l2 & _ & Hpart & _ & Hbal
                    & Hrest).
  assert (Hns : no_space (date pf) = true).
  { rewrite Hd. pose proof (split_parts line) as Hall.
    rewrite Forall_forall in Hall. apply Hall, lookup_total_head. lia. }
  split; [apply dom_mk_transaction|].
  split; [by rewrite Hd, <- head_date_pattern; [|lia]|].
  split; [done|].
  split.
  { rewrite Hbal, (is_numeric_of_clean (clean_amount part) part); [done|].
    destruct (clean_amount_no_separator part) as [Hc Ha].
    apply clean_amount_fixed; [done|done|apply clean_amount_trimmed]. }
  apply mk_transaction_trimmed.
  - by apply strip_no_space.
  - destruct (find_amount _ _) as [a k]. destruct Hrest as [_ ->].
    apply strip_idemp.
  - destruct prev as [p|], (amount pf) as [a|];
      try (by destruct Hdc as [-> _]).
    destruct Hdc as (da & _ & [(_ & _ & ->)|(_ & -> & _)]);
      [done|apply strip_str].
  - destruct prev as [p|], (amount pf) as [a|];
      try (by destruct Hdc as [_ ->]).
    destruct Hdc as (da & _ & [(_ & -> & _)|(_ & _ & ->)]);
      [apply strip_str|done].
  - rewrite Hbal. apply clean_amount_trimmed.
Qed.

Lemma parse_pages_fields (pages : list (option string)) :
  Forall (λ t, ∃ line, emitted_from line t) (transactions (parse_pages pages)).
Proof.
  destruct (parse_pages_order (enumerate 1 pages) parser_init)
    as (accepted & new & _ & Hall & Htr).
  unfold parse_pages. rewrite Htr. simpl. clear Htr.
  induction Hall as [|line t accepted new Hline Hall IH]; [constructor|].
  constructor; [by exists line|done].
Qed.

(** X8.  Every record the parser emits has exactly the five keys Date,
    Description, Debit, Credit and Balance; its Date has the shape
    DD.MM.YY, its Balance is numeric, and none of its values has
    surrounding whitespace. *)
Theorem parser_record_fields (pages : list (option string)) :
  Forall (λ t, dom t = output_keys
               ∧ date_pattern (get t "Date") = true
               ∧ is_numeric (get t "Balance") = true
               ∧ ∀ k, strip (get t k) = get t k)
    (transactions (parse_pages pages)).
Proof.
  eapply Forall_impl; [apply parse_pages_fields|].
  intros t [line Hline].
  by destruct (emitted_record_fields line t Hline) as (? & ? & _ & ? & ?).
Qed.

(** What the validator puts in a record it keeps. *)
Lemma kept_record_fields (t t' : Transaction) :
  kept_from t t' →
  dom t' = output_keys
  ∧ get t' "Date" = strip (get t "Date")
  ∧ get t' "Description" = strip (get t "Description")
  ∧ get t' "Balance" = strip (get t "Balance")
  ∧ get t' "Date" ≠ ""
  ∧ get t' "Description" ≠ ""
  ∧ get t' "Balance" ≠ ""
  ∧ (∃ b, of_str (get t' "Balance") = Ok b)
  ∧ ∀ k, strip (get t' k) = get t' k.
Proof.
  intros (prev & cur & Hv).
  apply validate_one_kept in Hv as (Hd & Hs & Hb & Hcur & d' & c' & -> & Hrep).
  rewrite get_Date, get_Description, get_Balance.
  split; [apply dom_mk_transaction|]. do 6 (split; [done|]).
  split; [by exists cur|].
  assert (Htrim : strip d' = d' ∧ strip c' = c').
  { unfold repaired in Hrep. destruct prev as [p|].
    - destruct Hrep as (diff & bd & _ & _ & Hrep).
      destruct (truthy _ || truthy _).
      + destruct Hrep as [-> ->]. by rewrite !strip_idemp.
      + destruct Hrep as [(_ & -> & ->)|[(_ & _ & -> & ->)|(_ & _ & -> & ->)]];
          by rewrite ?strip_str.
    - destruct Hrep as [-> ->]. by rewrite !strip_idemp. }
  destruct Htrim as [Hd' Hc'].
  apply mk_transaction_trimmed; auto using strip_idemp.
Qed.

(** X9.  Every record of the validator's output, whatever the input
    records were, has exactly the five keys Date, Description, Debit,
    Credit and Balance (other keys of the input are dropped, missing
    ones appear); Date, Description and Balance are non-empty, Balance
    is accepted by [Decimal], and no value has surrounding whitespace. *)
Theorem validator_record_fields (l out : list Transaction) :
  validate_transactions l = Ok out →
  Forall (λ t', dom t' = output_keys
                ∧ get t' "Date" ≠ ""
                ∧ get t' "Description" ≠ ""
                ∧ get t' "Balance" ≠ ""
                ∧ (∃ b, of_str (get t' "Balance") = Ok b)
                ∧ ∀ k, strip (get t' k) = get t' k) out.
Proof.
  unfold validate_transactions.
  destruct (validate_loop validator_init l) as [st|] eqn:Hrun; [|done].
  simpl. intros [= <-].
  apply validate_loop_order in Hrun as (kept & new & _ & Hall & ->). simpl.
  induction Hall as [|t t' kept new Hk Hall IH]; [constructor|].
  constructor; [|done].
  by destruct (kept_record_fields t t' Hk)
    as (? & _ & _ & _ & ? & ? & ? & ? & ?).
Qed.

Lemma validator_record_fields_witness :
  Forall (λ t', dom t' = output_keys
                ∧ get t' "Date" ≠ ""
                ∧ get t' "Description" ≠ ""
                ∧ get t' "Balance" ≠ ""
                ∧ (∃ b, of_str (get t' "Balance") = Ok b)
                ∧ ∀ k, strip (get t' k) = get t' k)
    [mk_transaction "01.02.24" "GROCERY STORE" "" "" "1000.00"].
Proof.
  apply (validator_record_fields
           [<["Note" := "x"]> (<["Date" := " 01.02.24"]>
              (<["Description" := "GROCERY STORE "]>
                 (<["Balance" := "1000.00"]> ∅)))]).
  vm_compute. exact eq_refl.
Defined.

(** A numeric string is not empty. *)
Lemma is_numeric_nonempty (s : string) : is_numeric s = true → s ≠ "".
Proof. by intros H ->. Qed.

Lemma date_pattern_nonempty (s : string) : date_pattern s = true → s ≠ "".
Proof. by intros H ->. Qed.

(** X10.  The validator discards a record of the parser without logging
    exactly when its Description is empty: Date and Balance of such a
    record are never blank. *)
Theorem parser_record_dropped_iff (line : string) (t : Transaction)
    (vprev : option Decimal) :
  emitted_from line t →
  (validate_one vprev t = Ok None ↔ get t "Description" = "").
Proof.
  intros Hline.
  destruct (emitted_record_fields line t Hline) as (_ & Hd & _ & Hb & Htrim).
  apply date_pattern_nonempty, truthy_true in Hd.
  pose proof (is_numeric_nonempty _ Hb) as Hbne. apply truthy_true in Hbne.
  unfold validate_one. cbv zeta. rewrite !Htrim, Hd, Hbne, andb_true_r.
  simpl. destruct (get t "Description") as [|c r] eqn:Hdesc; simpl.
  - done.
  - split; [|done].
    destruct (of_str (get t "Balance")) as [cur|]; simpl; [|done].
    by destruct (match vprev with Some _ => _ | None => _ end).
Qed.

Lemma parser_record_dropped_iff_witness :
  validate_one None (mk_transaction "01.02.24" "" "" "" "100.00") = Ok None
  ↔ get (mk_transaction "01.02.24" "" "" "" "100.00") "Description" = "".
Proof.
  apply (parser_record_dropped_iff "01.02.24 100.00 foo").
  exists None, (DFinite false 10000 (-2)). vm_compute. exact eq_refl.
Defined.

(** X11.  What [main] hands to [save_transactions]: every record has
    exactly the five output keys, a Date of the shape DD.MM.YY, a
    non-empty Description, a numeric Balance, at most one of Debit and
    Credit non-empty, and no value with surrounding whitespace. *)
Theorem main_record_fields (pages : list (option string))
    (out : list Transaction) :
  main_transactions pages = Ok out →
  Forall (λ t, dom t = output_keys
               ∧ date_pattern (get t "Date") = true
               ∧ get t "Description" ≠ ""
               ∧ is_numeric (get t "Balance") = true
               ∧ at_most_one t
               ∧ ∀ k, strip (get t k) = get t k) out.
Proof.
  unfold main_transactions, parse_pdf.
  destruct pages as [|page pages]; [done|]. simpl.
  set (raw := transactions (parse_pages (page :: pages))).
  intros Hv.
  assert (Hone : Forall at_most_one out).
  { unfold validate_transactions in Hv.
    destruct (validate_loop validator_init raw) as [st|] eqn:Hrun; [|done].
    simpl in Hv. injection Hv as <-.
    apply (validate_loop_at_most_one raw validator_init); [|constructor|done].
    eapply Forall_impl; [apply parse_pages_fields|].
    intros t [line (prev & cur & Hp)]. by eapply process_line_at_most_one. }
  unfold validate_transactions in Hv.
  destruct (validate_loop validator_init raw) as [st|] eqn:Hrun; [|done].
  simpl in Hv. injection Hv as <-.
  apply validate_loop_order in Hrun as (kept & new & Hsub & Hall & Hval).
  simpl in Hval. rewrite Hval in Hone |- *. clear Hval.
  assert (Hkept : Forall (λ t, ∃ line, emitted_from line t) kept).
  { apply Forall_forall. intros t Ht.
    pose proof (parse_pages_fields (page :: pages)) as Hraw.
    rewrite Forall_forall in Hraw. apply Hraw.
    by apply (sublist_subseteq _ _ Hsub). }
  clear Hsub. induction Hall as [|t t' kept new Hk Hall IH]; [constructor|].
  apply Forall_cons in Hkept as [[line Hline] Hkept].
  apply Forall_cons in Hone as [Ht' Hone].
  constructor; [|by apply IH].
  destruct (emitted_record_fields line t Hline) as (_ & Hd & _ & Hb & Htrim).
  destruct (kept_record_fields t t' Hk)
    as (Hdom & HD & _ & HB & _ & Hdesc & _ & _ & Htrim').
  rewrite HD, HB, !Htrim. done.
Qed.

Lemma main_record_fields_witness :
  Forall (λ t, dom t = output_keys
               ∧ date_pattern (get t "Date") = true
               ∧ get t "Description" ≠ ""
               ∧ is_numeric (get t "Balance") = true
               ∧ at_most_one t
               ∧ ∀ k, strip (get t k) = get t k)
    [mk_transaction "01.02.24" "GROCERY STORE" "" "" "1000.00";
     mk_transaction "02.02.24" "SALARY" "" "200.00" "1200.00"].
Proof.
  apply (main_record_fields
           [Some "01.02.24 GROCERY STORE 45.00 1,000.00";
            Some "01.02.24 100.00 foo";
            Some "02.02.24 SALARY 1200.00"]).
  vm_compute. exact eq_refl.
Defined.

(** X12.  The two counts [main] logs: the validator returns at most as
    many records as the parser emitted, and the parser emits at most one
    record per line of the document. *)
Theorem main_counts (pages : list (option string)) (out : list Transaction) :
  main_transactions pages = Ok out →
  (length out ≤ length (transactions (parse_pages pages)))%nat
  ∧ (length (transactions (parse_pages pages)) ≤ length (doc_lines pages))%nat.
Proof.
  unfold main_transactions, parse_pdf.
  destruct pages as [|page pages]; [done|]. simpl.
  set (pgs := page :: pages). intros Hv. split.
  - unfold validate_transactions in Hv.
    destruct (validate_loop validator_init _) as [st|] eqn:Hrun; [|done].
    simpl in Hv. injection Hv as <-.
    apply validate_loop_order in Hrun as (kept & new & Hsub & Hall & ->).
    simpl. rewrite <- (Forall2_length _ _ _ Hall). by apply sublist_length.
  - destruct (parse_pages_order (enumerate 1 pgs) parser_init)
      as (accepted & new & Hsub & Hall & Htr).
    rewrite enumerate_snd in Hsub. unfold parse_pages. rewrite Htr. simpl.
    rewrite <- (Forall2_length _ _ _ Hall). by apply sublist_length.
Qed.

Lemma main_counts_witness :
  (length [mk_transaction "01.02.24" "GROCERY STORE" "" "" "1000.00"]
   ≤ length (transactions
               (parse_pages [Some "01.02.24 GROCERY STORE 45.00 1,000.00";
                             Some "01.02.24 100.00 foo"])))%nat
  ∧ (length (transactions
               (parse_pages [Some "01.02.24 GROCERY STORE 45.00 1,000.00";
                             Some "01.02.24 100.00 foo"]))
     ≤ length (doc_lines [Some "01.02.24 GROCERY STORE 45.00 1,000.00";
                          Some "01.02.24 100.00 foo"]))%nat.
Proof.
  apply main_counts. vm_compute. exact eq_refl.
Defined.

End RecordFields.

(** ** Classified records in the validator *)

Section ClassifiedRecords.

(** C8.  In the validator, for every record received from the parser
    with exactly one of Debit and Credit populated, reached with a known
    previous balance: when it is kept, the output record is the input
    record, its Debit and Credit untouched, and the previous balance
    moves to its balance; and it is kept, with a non-empty Description,
    as soon as the difference of the balances can be computed, whatever
    the order of the two balances and whatever the difference is. *)
Theorem populated_amount_untouched (pages : list (option string))
    (raw : list Transaction) (t : Transaction) (st : validator_state)
    (previous_balance : Decimal) :
  parse_pdf pages = Ok raw → t ∈ raw →
  validator_prev st = Some previous_balance →
  (get t "Debit" ≠ "" ∧ get t "Credit" = "")
  ∨ (get t "Debit" = "" ∧ get t "Credit" ≠ "") →
  (∀ st', validate_loop st [t] = Ok st' →
     (validated_transactions st' = validated_transactions st
      ∧ validator_prev st' = validator_prev st)
     ∨ ∃ t' current_balance,
         validated_transactions st' = validated_transactions st ++ [t']
         ∧ validator_prev st' = Some current_balance
         ∧ of_str (get t "Balance") = Ok current_balance
         ∧ get t' "Debit" = get t "Debit"
         ∧ get t' "Credit" = get t "Credit"
         ∧ t' = t)
  ∧ ∃ current_balance,
      of_str (get t "Balance") = Ok current_balance
      ∧ (get t "Description" ≠ "" →
         ∀ diff balance_diff,
           sub current_balance previous_balance = Ok diff →
           abs diff = Ok balance_diff →
           validate_loop st [t] = Ok (after_keeping st t current_balance)).
Proof.
  intros Hpdf Hin Hprev Hone.
  assert (Hline : ∃ line, emitted_from line t).
  { unfold parse_pdf in Hpdf. destruct pages as [|page pages]; [done|].
    injection Hpdf as <-.
    pose proof (parse_pages_fields (page :: pages)) as Hall.
    rewrite Forall_forall in Hall. by apply Hall. }
  destruct Hline as [line Hline].
  destruct (emitted_record_fields line t Hline)
    as (_ & Hdate & _ & Hnum & Htrim).
  destruct Hline as (prev & cur0 & Hp).
  apply process_line_emits in Hp as (pf & d & c & _ & Hcur0 & Ht & _).
  assert (Hmk : t = mk_transaction (get t "Date") (get t "Description")
                      (get t "Debit") (get t "Credit") (get t "Balance")).
  { rewrite Ht at 1.
    by rewrite Ht, get_Date, get_Description, get_Debit, get_Credit,
         get_Balance. }
  assert (Hbal : of_str (get t "Balance") = Ok cur0).
  { by rewrite Ht, get_Balance. }
  assert (Hdc : truthy (strip (get t "Debit")) || truthy (strip (get t "Credit"))
                = true).
  { rewrite !Htrim.
    destruct Hone as [[H%truthy_true _]|[_ H%truthy_true]]; rewrite H;
      by rewrite ?orb_true_r. }
  split.
  - intros st' Hstep.
    apply validate_loop_step in Hstep
      as [(Hv & Hp & _)|(t' & cur & Hkept & Hv & Hp)]; [by left|].
    right. exists t', cur. rewrite Hprev in Hkept.
    destruct (populated_amount_trimmed _ _ _ _ Hkept Hdc) as [Hd' Hc'].
    rewrite (Htrim "Debit") in Hd'. rewrite (Htrim "Credit") in Hc'.
    apply validate_one_kept in Hkept
      as (_ & _ & _ & Hcur & d' & c' & Ht' & _).
    rewrite (Htrim "Balance") in Hcur.
    rewrite (Htrim "Date"), (Htrim "Description"), (Htrim "Balance") in Ht'.
    rewrite Ht', get_Debit in Hd'. rewrite Ht', get_Credit in Hc'.
    rewrite Hd', Hc', <- Hmk in Ht'. by subst t'.
  - exists cur0. split; [done|].
    intros Hdesc diff bd Hsub Habs. simpl. rewrite Hprev.
    rewrite (validate_one_keeps (Some previous_balance) t cur0
               (get t "Debit") (get t "Credit")).
    + rewrite !Htrim, <- Hmk. done.
    + rewrite Htrim. intros Hempty. by rewrite Hempty in Hdate.
    + by rewrite Htrim.
    + rewrite Htrim. intros Hempty. by rewrite Hempty in Hnum.
    + by rewrite Htrim.
    + exists diff, bd. by rewrite Hdc, !Htrim.
Qed.

(** A balance that rose by 500.00 with a stated amount of 800.00: the
    parser classifies the amount as a Credit, and the validator keeps
    the record as it is. *)
Lemma populated_amount_untouched_witness :
  validate_loop
    {| validated_transactions :=
         [mk_transaction "01.02.24" "GROCERY STORE" "" "" "1000.00"];
       validator_prev := Some (DFinite false 100000 (-2));
       validator_log := [] |}
    [mk_transaction "02.02.24" "SALARY" "" "800.00" "1500.00"]
  = Ok {| validated_transactions :=
            [mk_transaction "01.02.24" "GROCERY STORE" "" "" "1000.00";
             mk_transaction "02.02.24" "SALARY" "" "800.00" "1500.00"];
          validator_prev := Some (DFinite false 150000 (-2));
          validator_log := [] |}.
Proof.
  destruct (populated_amount_untouched
              [Some "01.02.24 GROCERY STORE 45.00 1,000.00";
               Some "02.02.24 SALARY 800.00 1,500.00"]
              [mk_transaction "01.02.24" "GROCERY STORE" "" "" "1000.00";
               mk_transaction "02.02.24" "SALARY" "" "800.00" "1500.00"]
              (mk_transaction "02.02.24" "SALARY" "" "800.00" "1500.00")
              {| validated_transactions :=
                   [mk_transaction "01.02.24" "GROCERY STORE" "" "" "1000.00"];
                 validator_prev := Some (DFinite false 100000 (-2));
                 validator_log := [] |}
              (DFinite false 100000 (-2)))
    as (_ & cur & Hcur & Hkept).
  - vm_compute. exact eq_refl.
  - apply list_elem_of_further, list_elem_of_here.
  - reflexivity.
  - right. rewrite get_Debit, get_Credit. split; [reflexivity|discriminate].
  - rewrite get_Balance in Hcur.
    assert (Hbal : of_str "1500.00" = Ok (DFinite false 150000 (-2)))
      by (vm_compute; exact eq_refl).
    rewrite Hbal in Hcur. injection Hcur as <-.
    rewrite (Hkept ltac:(rewrite get_Description; discriminate)
               (DFinite false 50000 (-2)) (DFinite false 50000 (-2))
               ltac:(vm_compute; exact eq_refl)
               ltac:(vm_compute; exact eq_refl)).
    vm_compute. exact eq_refl.
Defined.

End ClassifiedRecords.

(** ** How runs compose *)

Section Composition.

(** The records a run adds do not depend on the records before it. *)
Lemma run_lines_acc (acc : list Transaction) (prev : option Decimal)
    (lines : list string) :
  run_lines acc prev lines
  = (acc ++ (run_lines [] prev lines).1, (run_lines [] prev lines).2).
Proof.
  revert acc prev. induction lines as [|line lines IH]; intros acc prev; simpl.
  { by rewrite app_nil_r. }
  destruct (process_line prev line) as [[[t cur]|]|e]; try apply IH.
  rewrite (IH (acc ++ [t])), (IH [t]). simpl. by rewrite <- app_assoc.
Qed.

Lemma doc_lines_app (p1 p2 : list (option string)) :
  doc_lines (p1 ++ p2) = doc_lines p1 ++ doc_lines p2.
Proof. unfold doc_lines. by rewrite map_app, concat_app. Qed.

(** X13.  Parsing a document whose pages are [p1] followed by [p2]
    gives the transactions of [p1] followed by those of the lines of
    [p2] read from the previous balance [p1] ends with: later pages
    depend on earlier ones through that balance only. *)
Theorem parse_pages_app (p1 p2 : list (option string)) :
  transactions (parse_pages (p1 ++ p2))
  = transactions (parse_pages p1)
    ++ (run_lines [] (prev_balance (parse_pages p1)) (doc_lines p2)).1
  ∧ prev_balance (parse_pages (p1 ++ p2))
    = (run_lines [] (prev_balance (parse_pages p1)) (doc_lines p2)).2.
Proof.
  pose proof (parse_pages_run (p1 ++ p2)) as H12.
  pose proof (parse_pages_run p1) as H1.
  rewrite doc_lines_app, run_lines_app, <- H1 in H12. simpl in H12.
  rewrite run_lines_acc in H12. by injection H12.
Qed.

(** States that differ in their log only run alike. *)
Lemma validate_loop_log (l : list Transaction) (st1 st2 : validator_state) :
  validated_transactions st1 = validated_transactions st2 →
  validator_prev st1 = validator_prev st2 →
  match validate_loop st1 l, validate_loop st2 l with
  | Ok a, Ok b =>
      validated_transactions a = validated_transactions b
      ∧ validator_prev a = validator_prev b
  | Raise e1, Raise e2 => e1 = e2
  | _, _ => False
  end.
Proof.
  revert st1 st2. induction l as [|t l IH]; intros st1 st2 Hv Hp; simpl.
  { done. }
  rewrite Hp.
  destruct (validate_one (validator_prev st2) t) as [[[t' cur]|]|e].
  - apply IH; simpl; [by rewrite Hv|done].
  - by apply IH.
  - destruct (handled e); [|done]. by apply IH.
Qed.

Lemma validate_loop_same_output (l : list Transaction)
    (st1 st2 : validator_state) :
  validated_transactions st1 = validated_transactions st2 →
  validator_prev st1 = validator_prev st2 →
  (st ← validate_loop st1 l; Ok (validated_transactions st))
  = (st ← validate_loop st2 l; Ok (validated_transactions st)).
Proof.
  intros Hv Hp. pose proof (validate_loop_log l st1 st2 Hv Hp) as H.
  destruct (validate_loop st1 l), (validate_loop st2 l); simpl; try done.
  - by destruct H as [-> _].
  - by rewrite H.
Qed.

(** X14.  A record whose Date, Description or Balance is missing or
    blank after trimming, or whose Balance is not accepted by [Decimal],
    has no effect on the validator's result: the output is the one of
    the input without that record. *)
Theorem unusable_record_has_no_effect (t : Transaction)
    (before after : list Transaction) :
  strip (get t "Date") = "" ∨ strip (get t "Description") = ""
  ∨ strip (get t "Balance") = ""
  ∨ of_str (strip (get t "Balance")) = Raise InvalidOperation →
  validate_transactions (before ++ t :: after)
  = validate_transactions (before ++ after).
Proof.
  intros Hbad. unfold validate_transactions. rewrite !validate_loop_app.
  destruct (validate_loop validator_init before) as [st|e]; [|done].
  simpl.
  assert (Hone : validate_one (validator_prev st) t = Ok None
                 ∨ validate_one (validator_prev st) t = Raise InvalidOperation).
  { unfold validate_one. cbv zeta.
    destruct (truthy (strip (get t "Date")) && truthy (strip (get t "Description"))
              && truthy (strip (get t "Balance"))) eqn:Hall; [|by left].
    apply andb_true_iff in Hall as [[Hd%truthy_true Hs%truthy_true]%andb_true_iff
                                      Hb%truthy_true].
    destruct Hbad as [?|[?|[?|Hraise]]]; try done.
    right. simpl. by rewrite Hraise. }
  destruct Hone as [-> | ->]; [done|]. simpl.
  by apply validate_loop_same_output.
Qed.

Lemma unusable_record_has_no_effect_witness :
  validate_transactions
    [mk_transaction "01.02.24" "GROCERY STORE" "" "" "1000.00";
     <["Date" := "02.02.24"]> (<["Description" := "FEE"]> ∅);
     mk_transaction "03.02.24" "SALARY" "" "" "1200.00"]
  = validate_transactions
      [mk_transaction "01.02.24" "GROCERY STORE" "" "" "1000.00";
       mk_transaction "03.02.24" "SALARY" "" "" "1200.00"].
Proof.
  apply (unusable_record_has_no_effect
           (<["Date" := "02.02.24"]> (<["Description" := "FEE"]> ∅))
           [mk_transaction "01.02.24" "GROCERY STORE" "" "" "1000.00"]
           [mk_transaction "03.02.24" "SALARY" "" "" "1200.00"]).
  right; right; left. vm_compute. exact eq_refl.
Defined.

(** X15.  The validator works record by record from the front: what it
    returns for a list starts with what it returns for any prefix of the
    list, and an exception on a prefix is the exception on the list. *)
Theorem validate_transactions_prefix (l1 l2 : list Transaction) :
  (∀ e, validate_transactions l1 = Raise e →
        validate_transactions (l1 ++ l2) = Raise e)
  ∧ (∀ out, validate_transactions (l1 ++ l2) = Ok out →
            ∃ out1 out2, validate_transactions l1 = Ok out1
                         ∧ out = out1 ++ out2).
Proof.
  unfold validate_transactions. rewrite validate_loop_app.
  destruct (validate_loop validator_init l1) as [st|e1] eqn:H1; simpl.
  - split; [done|]. intros out.
    destruct (validate_loop st l2) as [st'|] eqn:H2; simpl; [|done].
    intros [= <-].
    apply validate_loop_order in H2 as (kept & new & _ & _ & ->).
    by exists (validated_transactions st), new.
  - split; [done|]. done.
Qed.

Lemma validate_transactions_prefix_witness :
  ∃ out1 out2,
    validate_transactions
      [mk_transaction "01.02.24" "GROCERY STORE" "" "" "1000.00"] = Ok out1
    ∧ [mk_transaction "01.02.24" "GROCERY STORE" "" "" "1000.00";
       mk_transaction "02.02.24" "SALARY" "" "200.00" "1200.00"]
      = out1 ++ out2.
Proof.
  apply (proj2 (validate_transactions_prefix
                  [mk_transaction "01.02.24" "GROCERY STORE" "" "" "1000.00"]
                  [mk_transaction "02.02.24" "SALARY" "" "" "1200.00"])).
  vm_compute. exact eq_refl.
Defined.

End Composition.

(** ** Derived amounts are never negative *)

Section DerivedAmounts.

Lemma starts_with_minus_app (a b : string) :
  a ≠ "" → starts_with_minus (a +:+ b) = starts_with_minus a.
Proof. by destruct a. Qed.

Lemma str_int_no_minus (n : N) : starts_with_minus (str_int n) = false.
Proof.
  unfold str_int, DecimalString.NilZero.string_of_uint.
  by destruct (N.to_uint n).
Qed.

Lemma substring_head (s : string) (n : nat) :
  (0 < n)%nat →
  starts_with_minus (String.substring 0 n s) = starts_with_minus s.
Proof. destruct s, n; simpl; (done || lia). Qed.

Lemma str_finite_no_minus (c : N) (e : Z) :
  starts_with_minus (str_finite c e) = false.
Proof.
  unfold str_finite.
  set (ds := str_int c). set (len := Z.of_nat (String.length ds)).
  set (dotplace := if (e <=? 0) && (-6 <? e + len) then e + len else 1).
  assert (Hbody :
    ∀ body, body = (if dotplace <=? 0
                    then "0" +:+ "." +:+ zeros (Z.to_nat (- dotplace)) +:+ ds
                    else if len <=? dotplace
                         then ds +:+ zeros (Z.to_nat (dotplace - len))
                         else String.substring 0 (Z.to_nat dotplace) ds +:+ "." +:+
                              String.substring (Z.to_nat dotplace)
                                (Z.to_nat (len - dotplace)) ds) →
    body ≠ "" ∧ starts_with_minus body = false).
  { intros body ->. destruct (dotplace <=? 0) eqn:Hd; [done|].
    apply Z.leb_gt in Hd. destruct (len <=? dotplace).
    - split; [apply app_nonempty_l, str_int_nonempty|].
      rewrite starts_with_minus_app by apply str_int_nonempty.
      apply str_int_no_minus.
    - assert (Hsub : String.substring 0 (Z.to_nat dotplace) ds ≠ "").
      { apply substring_0_nonempty; [apply str_int_nonempty|lia]. }
      split; [by apply app_nonempty_l|].
      rewrite starts_with_minus_app, substring_head by (done || lia).
      apply str_int_no_minus. }
  destruct (Hbody _ eq_refl) as [Hne Hno].
  destruct (e + len =? dotplace); [done|].
  by rewrite starts_with_minus_app.
Qed.

(** The string of a number that is not a NaN and has no negative sign
    does not start with a minus sign. *)
Lemma str_unsigned_no_minus (d : Decimal) :
  match d with
  | DFinite false _ _ | DInf false => starts_with_minus (str d) = false
  | _ => True
  end.
Proof.
  destruct d as [[] c e|[]|s sig p]; try done. simpl.
  apply str_finite_no_minus.
Qed.

Lemma fix_finite_sign (s : bool) (c : N) (e : Z) (r : Decimal) :
  fix_finite s c e = Ok r → ∃ c' e', r = DFinite s c' e'.
Proof.
  unfold fix_finite. repeat case_match; intros [= <-]; eauto.
Qed.

Lemma add_not_nan (a b d : Decimal) :
  is_nan a = false → is_nan b = false → add a b = Ok d → is_nan d = false.
Proof.
  destruct a as [s1 c1 e1|s1|], b as [s2 c2 e2|s2|]; try done; intros _ _;
    unfold add; simpl.
  - repeat case_match; by intros (c' & e' & ->)%fix_finite_sign.
  - by intros [= <-].
  - by intros [= <-].
  - destruct (Bool.eqb s1 s2); by intros [= <-].
Qed.

Lemma sub_not_nan (a b d : Decimal) :
  is_nan a = false → is_nan b = false → sub a b = Ok d → is_nan d = false.
Proof.
  intros Ha Hb. unfold sub.
  assert (Hc : check_nans a b = None) by (by destruct a, b).
  rewrite Hc. apply add_not_nan; [done|]. by destruct b.
Qed.

(** [abs] of a number that is not a NaN has no minus sign. *)
Lemma abs_no_minus (d r : Decimal) :
  is_nan d = false → abs d = Ok r → starts_with_minus (str r) = false.
Proof.
  destruct d as [s c e|s|]; [| |done]; intros _; simpl.
  - intros (c' & e' & ->)%fix_finite_sign. apply str_finite_no_minus.
  - by intros [= <-].
Qed.

Lemma lt_not_nan (a b : Decimal) (r : bool) :
  lt a b = Ok r → is_nan a = false ∧ is_nan b = false.
Proof. unfold lt. by destruct (is_nan a), (is_nan b). Qed.

(** X16.  An amount the validator derives from two balances is never
    negative: when it fills Debit or Credit of a kept record that had
    neither, the value does not start with a minus sign. *)
Theorem derived_amount_not_negative (previous_balance : Decimal)
    (t t' : Transaction) (current_balance : Decimal) :
  validate_one (Some previous_balance) t = Ok (Some (t', current_balance)) →
  strip (get t "Debit") = "" → strip (get t "Credit") = "" →
  starts_with_minus (get t' "Debit") = false
  ∧ starts_with_minus (get t' "Credit") = false.
Proof.
  intros (_ & _ & _ & _ & d' & c' & -> & Hrep)%validate_one_kept Hd Hc.
  rewrite get_Debit, get_Credit. rewrite Hd, Hc in Hrep. simpl in Hrep.
  destruct Hrep as (diff & bd & Hsub & Habs & Hrep).
  assert (Hno : ∀ b, lt current_balance previous_balance = Ok b →
                     starts_with_minus (str bd) = false).
  { intros b [Hcur Hprev]%lt_not_nan.
    eapply abs_no_minus; [|exact Habs].
    exact (sub_not_nan _ _ _ Hcur Hprev Hsub). }
  destruct Hrep as [(Hlt & -> & ->)|[(Hlt & _ & -> & ->)|(_ & _ & -> & ->)]];
    eauto.
Qed.

Lemma derived_amount_not_negative_witness :
  starts_with_minus
    (get (mk_transaction "02.02.24" "RENT" "800.00" "" "200.00") "Debit") = false
  ∧ starts_with_minus
      (get (mk_transaction "02.02.24" "RENT" "800.00" "" "200.00") "Credit")
    = false.
Proof.
  apply (derived_amount_not_negative (DFinite false 100000 (-2))
           (mk_transaction "02.02.24" "RENT" "" "" "200.00")
           _ (DFinite false 20000 (-2))); vm_compute; exact eq_refl.
Defined.

End DerivedAmounts.

(** ** Tokens after the balance *)

Section TrailingTokens.

Lemma split_go_app_space (a b cur : string) :
  split_go cur (a +:+ String " " b) = split_go cur a ++ split b.
Proof.
  revert cur. induction a as [|c a IH]; intros cur.
  - simpl. by destruct (is_empty cur).
  - change (String c a +:+ String " " b) with (String c (a +:+ String " " b)).
    cbn [split_go]. destruct (is_space c).
    + destruct (is_empty cur); by rewrite IH.
    + apply IH.
Qed.

(** Splitting two texts joined by a space gives the parts of the first
    followed by the parts of the second. *)
Lemma split_app_space (a b : string) :
  split (a +:+ String " " b) = split a ++ split b.
Proof. apply split_go_app_space. Qed.

Lemma find_numeric_found (i : nat) (l1 l2 : list string) (part : string) :
  Forall (λ t, is_numeric t = false) l1 → is_numeric part = true →
  find_numeric i (l1 ++ part :: l2) = Some ((i + length l1)%nat, part).
Proof.
  intros Hl1 Hpart. revert i.
  induction Hl1 as [|x l1 Hx Hl1 IH]; intros i; simpl.
  - rewrite Hpart. by rewrite Nat.add_0_r.
  - rewrite Hx, IH. do 2 f_equal. lia.
Qed.

(** The converse of [extract_Some_inv]: a line of this shape is
    accepted, with these fields. *)
Lemma extract_Some_intro (line : string) (l1 l2 : list string) (part : string) :
  split line = l1 ++ part :: l2 →
  (3 ≤ length (split line))%nat →
  is_date (split line !!! 0%nat) = true →
  is_numeric part = true →
  Forall (λ t, is_numeric t = false) l2 →
  extract_transaction_data line
  = Some {| date := split line !!! 0%nat;
            description :=
              strip (join " "
                (if 0 <? (find_amount (split line)
                            (Z.to_nat (Z.of_nat (length l1) - 1))).2
                 then slice (split line) 1
                        (find_amount (split line)
                           (Z.to_nat (Z.of_nat (length l1) - 1))).2
                 else slice (split line) 1 (Z.of_nat (length l1))));
            amount := (find_amount (split line)
                         (Z.to_nat (Z.of_nat (length l1) - 1))).1;
            balance := clean_amount part |}.
Proof.
  intros Hparts Hlen Hdate Hpart Hl2. unfold extract_transaction_data.
  cbv zeta. apply Nat.ltb_ge in Hlen. rewrite Hlen, Hdate. simpl.
  assert (Hrev : reverse (split line) = reverse l2 ++ part :: reverse l1).
  { rewrite Hparts, reverse_app, reverse_cons, <- app_assoc. done. }
  rewrite Hrev, find_numeric_found by (by try apply Forall_reverse).
  destruct (is_numeric_clean part Hpart) as [Hne%truthy_true _].
  simpl. rewrite Hne. simpl.
  replace (Z.of_nat (length (split line)) - 1 - Z.of_nat (length (reverse l2)))
    with (Z.of_nat (length l1)).
  2:{ rewrite Hparts, length_app, length_reverse. simpl. lia. }
  by destruct (find_amount _ _).
Qed.

Lemma find_amount_app (parts extra : list string) (n : nat) :
  (n < length parts)%nat →
  find_amount (parts ++ extra) n = find_amount parts n.
Proof.
  induction n as [|n IH]; intros Hn; simpl; [done|].
  rewrite lookup_app_l by lia. rewrite IH by lia. done.
Qed.

Lemma slice_app {A} (l extra : list A) (j : Z) :
  0 ≤ j ≤ Z.of_nat (length l) → slice (l ++ extra) 1 j = slice l 1 j.
Proof.
  intros Hj. unfold slice, slice_bound. rewrite length_app.
  replace (Z.to_nat (Z.min (Z.of_nat (length l + length extra))
             (Z.max 0 (if j <? 0 then j + Z.of_nat (length l + length extra) else j))))
    with (Z.to_nat j) by (destruct (j <? 0) eqn:E; lia).
  replace (Z.to_nat (Z.min (Z.of_nat (length l))
             (Z.max 0 (if j <? 0 then j + Z.of_nat (length l) else j))))
    with (Z.to_nat j) by (destruct (j <? 0) eqn:E; lia).
  destruct l as [|x l].
  - simpl in Hj. replace (Z.to_nat j) with 0%nat by lia. simpl.
    by destruct extra.
  - replace (Z.to_nat (Z.min (Z.of_nat (length (x :: l) + length extra))
               (Z.max 0 (if 1 <? 0 then 1 + Z.of_nat (length (x :: l) + length extra) else 1))))
      with 1%nat by (simpl; lia).
    replace (Z.to_nat (Z.min (Z.of_nat (length (x :: l)))
               (Z.max 0 (if 1 <? 0 then 1 + Z.of_nat (length (x :: l)) else 1))))
      with 1%nat by (simpl; lia).
    simpl. rewrite !drop_0, take_app_le; [done|]. simpl in Hj. lia.
Qed.

(** X17.  Text after the balance that holds no numeric token never
    changes what the tokenizer returns for an accepted line. *)
Theorem trailing_tokens_ignored (line junk : string) (pf : ParsedFields) :
  extract_transaction_data line = Some pf →
  Forall (λ t, is_numeric t = false) (split junk) →
  extract_transaction_data (line +:+ String " " junk) = Some pf.
Proof.
  intros He Hjunk.
  pose proof (extract_Some_inv line pf He) as Hinv. cbv zeta in Hinv.
  destruct Hinv as (Hlen & Hdate & Hd & l1 & part & l2 & Hparts & Hpart & Hl2
                    & Hbal & Hrest).
  assert (Hl1 : (length l1 < length (split line))%nat).
  { rewrite Hparts, length_app. simpl. lia. }
  assert (Hhead : (split line ++ split junk) !!! 0%nat = split line !!! 0%nat).
  { destruct (split line); [simpl in Hlen; lia|done]. }
  rewrite (extract_Some_intro _ l1 (l2 ++ split junk) part);
    rewrite ?split_app_space, ?Hhead, ?length_app; try done;
    [|by rewrite Hparts, <- app_assoc|lia|by apply Forall_app].
  rewrite find_amount_app by lia.
  destruct (find_amount (split line) _) as [a k] eqn:Hfa.
  pose proof (find_amount_spec (split line)
                (Z.to_nat (Z.of_nat (length l1) - 1))) as Hspec.
  rewrite Hfa in Hspec. destruct Hrest as [Ham Hdesc]. cbn [fst snd].
  assert (Hk : k ≤ Z.of_nat (length (split line))).
  { destruct a as [a|].
    - destruct Hspec as (_ & _ & _ & _ & Hk). lia.
    - destruct Hspec as [-> _]. lia. }
  destruct (0 <? k) eqn:Hpos.
  - apply Z.ltb_lt in Hpos. rewrite slice_app by lia.
    destruct pf as [d ds am b]. simpl in *. by subst.
  - rewrite slice_app by lia.
    destruct pf as [d ds am b]. simpl in *. by subst.
Qed.

Lemma trailing_tokens_ignored_witness :
  extract_transaction_data
    ("01.02.24 GROCERY STORE 45.00 1,000.00" +:+ String " " "CR page one")
  = Some {| date := "01.02.24"; description := "GROCERY STORE";
            amount := Some "45.00"; balance := "1000.00" |}.
Proof.
  apply trailing_tokens_ignored.
  - vm_compute. exact eq_refl.
  - assert (Hs : split "CR page one" = ["CR"; "page"; "one"])
      by (vm_compute; exact eq_refl).
    rewrite Hs.
    repeat (apply Forall_cons; split; [vm_compute; exact eq_refl|]).
    apply Forall_nil_2.
Defined.

End TrailingTokens.

(** ** Records of the parser in the validator *)

Section ParserRecordsValidated.

(** X18.  The validator never changes Date, Description or Balance of a
    record the parser emitted, and a record the parser classified (Debit
    or Credit populated) comes out of the validator as it went in. *)
Theorem classified_record_unchanged (line : string) (t t' : Transaction) :
  emitted_from line t → kept_from t t' →
  get t' "Date" = get t "Date"
  ∧ get t' "Description" = get t "Description"
  ∧ get t' "Balance" = get t "Balance"
  ∧ (get t "Debit" ≠ "" ∨ get t "Credit" ≠ "" → t' = t).
Proof.
  intros Hline Hkept.
  destruct (emitted_record_fields line t Hline) as (_ & _ & _ & _ & Htrim).
  destruct (kept_record_fields t t' Hkept) as (_ & HD & HS & HB & _).
  rewrite HD, HS, HB, !Htrim. do 3 (split; [done|]).
  intros Hpop. destruct Hline as (prev & cur & Hp).
  apply process_line_emits in Hp as (pf & d & c & _ & _ & Ht & _).
  destruct Hkept as (vprev & vcur & Hv).
  apply validate_one_kept in Hv as (_ & _ & _ & _ & d' & c' & -> & Hrep).
  rewrite !Htrim in Hrep |- *.
  assert (Hdc : d' = get t "Debit" ∧ c' = get t "Credit").
  { assert (Htruthy : truthy (get t "Debit") || truthy (get t "Credit") = true).
    { destruct Hpop as [H%truthy_true|H%truthy_true]; rewrite H;
        by rewrite ?orb_true_r. }
    unfold repaired in Hrep. destruct vprev as [p|]; [|done].
    destruct Hrep as (diff & bd & _ & _ & Hrep). by rewrite Htruthy in Hrep. }
  destruct Hdc as [-> ->].
  rewrite ?(Htrim "Date"), ?(Htrim "Description"), ?(Htrim "Balance"), Ht.
  by rewrite get_Date, get_Description, get_Debit, get_Credit, get_Balance.
Qed.

Lemma classified_record_unchanged_witness :
  get (mk_transaction "02.02.24" "RENT" "800.00" "" "200.00") "Date"
  = get (mk_transaction "02.02.24" "RENT" "800.00" "" "200.00") "Date"
  ∧ get (mk_transaction "02.02.24" "RENT" "800.00" "" "200.00") "Description"
    = get (mk_transaction "02.02.24" "RENT" "800.00" "" "200.00") "Description"
  ∧ get (mk_transaction "02.02.24" "RENT" "800.00" "" "200.00") "Balance"
    = get (mk_transaction "02.02.24" "RENT" "800.00" "" "200.00") "Balance"
  ∧ (get (mk_transaction "02.02.24" "RENT" "800.00" "" "200.00") "Debit" ≠ ""
     ∨ get (mk_transaction "02.02.24" "RENT" "800.00" "" "200.00") "Credit" ≠ ""
     → mk_transaction "02.02.24" "RENT" "800.00" "" "200.00"
       = mk_transaction "02.02.24" "RENT" "800.00" "" "200.00").
Proof.
  apply (classified_record_unchanged "02.02.24 RENT 800.00 200.00").
  - exists (Some (DFinite false 100000 (-2))), (DFinite false 20000 (-2)).
    vm_compute. exact eq_refl.
  - exists (Some (DFinite false 100000 (-2))), (DFinite false 20000 (-2)).
    vm_compute. exact eq_refl.
Defined.

(** X19.  When the previous or the current balance is a NaN, a line with
    an amount is never emitted: the comparison raises InvalidOperation,
    which the parser logs, and the line is skipped. *)
Theorem nan_balance_blocks_line (line : string) (pf : ParsedFields)
    (a : string) (previous_balance current_balance : Decimal) :
  extract_transaction_data line = Some pf →
  amount pf = Some a →
  of_str (balance pf) = Ok current_balance →
  is_nan current_balance || is_nan previous_balance = true →
  process_line (Some previous_balance) line = Raise InvalidOperation.
Proof.
  intros He Ha Hcur Hnan. unfold process_line. rewrite He, Hcur. simpl.
  destruct (extract_fields_parse line pf He) as [_ Hamount].
  destruct (Hamount a Ha) as [Hne%truthy_true [da Hda]].
  rewrite Ha. simpl. rewrite Hne, Hda. simpl.
  unfold gt. by rewrite Hnan.
Qed.

Lemma nan_balance_blocks_line_witness :
  process_line (Some (DNaN false false 0)) "02.02.24 RENT 800.00 200.00"
  = Raise InvalidOperation.
Proof.
  apply (nan_balance_blocks_line "02.02.24 RENT 800.00 200.00"
           {| date := "02.02.24"; description := "RENT";
              amount := Some "800.00"; balance := "200.00" |}
           "800.00" (DNaN false false 0) (DFinite false 20000 (-2)));
    vm_compute; exact eq_refl.
Defined.

Lemma validate_loop_first (l : list Transaction) (st st' : validator_state)
    (t' : Transaction) (rest : list Transaction) :
  validated_transactions st = [] → validator_prev st = None →
  validate_loop st l = Ok st' →
  validated_transactions st' = t' :: rest →
  ∃ t cur, t ∈ l ∧ validate_one None t = Ok (Some (t', cur)).
Proof.
  revert st. induction l as [|t l IH]; intros st Hv Hp; simpl.
  { intros [= <-]. by rewrite Hv. }
  rewrite Hp.
  destruct (validate_one None t) as [[[t0 cur]|]|e] eqn:Hone.
  - intros Hrun Hout.
    apply validate_loop_order in Hrun as (kept & new & _ & _ & Hval).
    simpl in Hval. rewrite Hv, Hout in Hval. simpl in Hval.
    injection Hval as -> _. exists t, cur. split; [apply list_elem_of_here|done].
  - intros Hrun Hout. destruct (IH st Hv Hp Hrun Hout) as (t1 & cur & Hin & H1).
    exists t1, cur. split; [by apply list_elem_of_further|done].
  - destruct (handled e); [|done]. intros Hrun Hout.
    destruct (IH {| validated_transactions := validated_transactions st;
                    validator_prev := None;
                    validator_log := validator_log st ++ [ValidationError e] |}
                Hv eq_refl Hrun Hout) as (t1 & cur & Hin & H1).
    exists t1, cur. split; [by apply list_elem_of_further|done].
Qed.

(** X20.  The first record of the validator's output carries nothing
    derived: its five values are the trimmed values of one input
    record, Debit and Credit included. *)
Theorem first_kept_record_only_trimmed (l : list Transaction)
    (t' : Transaction) (rest : list Transaction) :
  validate_transactions l = Ok (t' :: rest) →
  ∃ t, t ∈ l ∧ ∀ k, k ∈ output_keys → get t' k = strip (get t k).
Proof.
  unfold validate_transactions.
  destruct (validate_loop validator_init l) as [st|] eqn:Hrun; [|done].
  simpl. intros [= Hout].
  destruct (validate_loop_first l validator_init st t' rest eq_refl eq_refl
              Hrun Hout) as (t & cur & Hin & Hone).
  exists t. split; [done|].
  apply validate_one_kept in Hone as (_ & _ & _ & _ & d' & c' & -> & [-> ->]).
  intros k Hk. unfold output_keys in Hk.
  rewrite !elem_of_union, !elem_of_singleton in Hk.
  destruct Hk as [[[[-> | ->] | ->] | ->] | ->];
    by rewrite ?get_Date, ?get_Description, ?get_Debit, ?get_Credit,
         ?get_Balance.
Qed.

Lemma first_kept_record_only_trimmed_witness :
  ∃ t, t ∈ [mk_transaction "01.02.24" "" "" "" "900.00";
            mk_transaction " 01.02.24" "GROCERY STORE" "" "" "1000.00";
            mk_transaction "02.02.24" "SALARY" "" "" "1200.00"]
       ∧ ∀ k, k ∈ output_keys →
              get (mk_transaction "01.02.24" "GROCERY STORE" "" "" "1000.00") k
              = strip (get t k).
Proof.
  apply (first_kept_record_only_trimmed _ _
           [mk_transaction "02.02.24" "SALARY" "" "200.00" "1200.00"]).
  vm_compute. exact eq_refl.
Defined.

End ParserRecordsValidated.

(** ** Tokens without digits *)

Section SeparatorTokens.

Lemma lstrip_all_space (s : string) :
  (∀ c, has_char c s = true → is_space c = true) → lstrip s = "".
Proof.
  induction s as [|a s IH]; [done|]. intros H. simpl.
  rewrite (H a) by (simpl; by rewrite Ascii.eqb_refl).
  apply IH. intros c Hc. apply H. simpl. by rewrite Hc, orb_true_r.
Qed.

Lemma has_char_remove_char_inv (c x : ascii) (s : string) :
  has_char c (remove_char x s) = true → has_char c s = true ∧ c ≠ x.
Proof.
  induction s as [|a s IH]; [done|]. simpl.
  destruct (Ascii.eqb a x) eqn:Hax.
  - intros [H Hne]%IH. by rewrite H, orb_true_r.
  - simpl. intros [Hac | H]%orb_true_iff.
    + rewrite Hac. split; [done|].
      apply Ascii.eqb_eq in Hac as ->. by apply Ascii.eqb_neq.
    + destruct (IH H) as [-> ?]. by rewrite orb_true_r.
Qed.

Lemma has_char_rstrip_inv (c : ascii) (s : string) :
  has_char c (rstrip s) = true → has_char c s = true.
Proof.
  destruct (has_char c s) eqn:H; [done|]. by rewrite has_char_rstrip.
Qed.

(** X21.  A text made only of commas, apostrophes and whitespace (the
    empty text, a lone comma) is not numeric: it cleans to the empty
    string, which is rejected before [Decimal] is called. *)
Theorem separators_only_not_numeric (value : string) :
  (∀ c, has_char c value = true → c = ","%char ∨ c = "'"%char ∨ is_space c = true) →
  is_numeric value = false.
Proof.
  intros H. unfold is_numeric.
  assert (Hempty : strip (remove_char "'" (remove_char "," value)) = "").
  { unfold strip. apply lstrip_all_space. intros c Hc.
    apply has_char_rstrip_inv in Hc.
    apply has_char_remove_char_inv in Hc as [Hc Hna].
    apply has_char_remove_char_inv in Hc as [Hc Hnc].
    by destruct (H c Hc) as [?|[?|?]]. }
  by rewrite Hempty.
Qed.

Lemma separators_only_not_numeric_witness : is_numeric ",'," = false.
Proof.
  apply separators_only_not_numeric. intros c. cbn [has_char].
  rewrite !orb_true_iff, !Ascii.eqb_eq.
  intros [<-|[<-|[<-|?]]]; [by left|by right; left|by left|done].
Defined.

End SeparatorTokens.
